(** * Fluency ingestion pipeline: the two entry points, embedded and verified

    The repository holds two programs that run the same ingestion pipeline:

    - [api.py]: a FastAPI service; [capture_video] queues [run_pipeline url]
      as a background task (the URL-trigger entry point);
    - [admin.py]: a Streamlit form; a submitted form calls [process_video]
      (the upload entry point).

    Both are straight-line Python that talks to external services (a
    downloader, a media decoder, a speech recogniser, a chat model, an object
    store and a relational store).  They are embedded here as programs in a
    state-and-exception monad over an explicit [world] (local files, the
    storage bucket, the two tables and a log of every external call), with
    the behaviour of the services supplied by an [env] of oracles.

    What is left out: the start-up configuration of the two scripts, the
    login gate and the video preview of the form, the buffering of the
    temporary file, and the text that is spliced into what is printed.  JSON
    numbers are integers; a duration is a rational number of seconds. *)

From Stdlib Require Import QArith Ascii String.
From stdpp Require Import strings gmap list.

Local Open Scope Z_scope.

(** ** Python strings

    A Python [str] is a sequence of Unicode code points. *)

Module Str.

Definition pystr := list N.

(** The code points of an ASCII literal. *)
Definition py (s : string) : pystr :=
  (fun a => N_of_ascii a) <$> String.list_ascii_of_string s.

(** [str.isalnum] on one code point.  In the ASCII range these are the digits
    and the letters; further up the answer is that of the interpreter's
    Unicode database, which the caller passes as [uni]. *)
Definition isalnum_cp (uni : N -> bool) (c : N) : bool :=
  if (c <? 128)%N
  then ((48 <=? c) && (c <=? 57) || (65 <=? c) && (c <=? 90)
        || (97 <=? c) && (c <=? 122))%N
  else uni c.

(** [s.isalnum()]: every character is alphanumeric and there is at least
    one. *)
Definition isalnum (uni : N -> bool) (s : pystr) : bool :=
  match s with
  | [] => false
  | _ => forallb (isalnum_cp uni) s
  end.

Definition eqb (s t : pystr) : bool := bool_decide (s = t).

(** [old] is a prefix of [s]. *)
Fixpoint startswith (old s : pystr) : bool :=
  match old, s with
  | [], _ => true
  | _ :: _, [] => false
  | a :: old', b :: s' => (a =? b)%N && startswith old' s'
  end.

(** [x in s] for strings: [x] occurs in [s] as a substring. *)
Fixpoint contains (s x : pystr) : bool :=
  startswith x s ||
  match s with
  | [] => false
  | _ :: s' => contains s' x
  end.

(** [s.replace(old, new)] for a non-empty [old]: the non-overlapping
    occurrences of [old], found left to right, are replaced.  [skip] counts
    the characters of the occurrence just replaced that are still to be
    passed over. *)
Fixpoint replace_from (old new : pystr) (skip : nat) (s : pystr) : pystr :=
  match s with
  | [] => []
  | c :: s' =>
      match skip with
      | S k => replace_from old new k s'
      | O =>
          if startswith old s
          then new ++ replace_from old new (length old - 1) s'
          else c :: replace_from old new 0 s'
      end
  end.

Definition replace (old new s : pystr) : pystr := replace_from old new 0 s.

End Str.

Import Str.

(** ** Values decoded by [json.loads] *)

#[warnings="-register-all"]
Inductive json :=
| JNull
| JBool (b : bool)
| JInt (n : Z)
| JStr (s : pystr)
| JArr (items : list json)
| JObj (fields : list (pystr * json)).

(** The exception classes that the pipeline can meet.  [ServiceError] stands
    for whatever a client library raises when its request fails. *)
Inductive exn :=
| AttributeError
| TypeError
| KeyError
| FileNotFoundError
| JSONDecodeError
| ServiceError.

(** A pure Python expression either has a value or raises. *)
Inductive res (A : Type) :=
| Ok (a : A)
| Err (e : exn).
Arguments Ok {A} a.
Arguments Err {A} e.

Module Py.

(** Truth value of an object, as [if questions:] tests it. *)
Definition truthy (v : json) : bool :=
  match v with
  | JNull => false
  | JBool b => b
  | JInt n => negb (n =? 0)
  | JStr s => negb (bool_decide (s = []))
  | JArr l => match l with [] => false | _ => true end
  | JObj f => match f with [] => false | _ => true end
  end.

Fixpoint lookup_key (k : pystr) (fields : list (pystr * json)) : option json :=
  match fields with
  | [] => None
  | (k', v) :: rest => if eqb k k' then Some v else lookup_key k rest
  end.

(** [d.get(k, default)]: only a dict has the method. *)
Definition get (d : json) (k : pystr) (default : json) : res json :=
  match d with
  | JObj fields => Ok (from_option id default (lookup_key k fields))
  | _ => Err AttributeError
  end.

(** [d[k]]: a missing key of a dict is a [KeyError]; a list or a string takes
    no string index and the other values take none at all. *)
Definition item (d : json) (k : pystr) : res json :=
  match d with
  | JObj fields =>
      match lookup_key k fields with
      | Some v => Ok v
      | None => Err KeyError
      end
  | _ => Err TypeError
  end.

(** The elements that [for x in v] visits: those of a list, the keys of a
    dict, the characters of a string; nothing else is iterable. *)
Definition iter (v : json) : res (list json) :=
  match v with
  | JArr l => Ok l
  | JObj fields => Ok ((fun kv => JStr (fst kv)) <$> fields)
  | JStr s => Ok ((fun c => JStr [c]) <$> s)
  | _ => Err TypeError
  end.

(** Evaluate [f] on every element in order; the first exception ends the
    loop. *)
Fixpoint for_each {A B : Type} (f : A -> res B) (l : list A) : res (list B) :=
  match l with
  | [] => Ok []
  | x :: l' =>
      match f x with
      | Err e => Err e
      | Ok y =>
          match for_each f l' with
          | Err e => Err e
          | Ok ys => Ok (y :: ys)
          end
      end
  end.

(** [int(x)] on a float: truncation towards zero. *)
Definition int (x : Q) : Z := Z.quot (Qnum x) (Z.pos (Qden x)).

(** [x < y] on floats. *)
Definition lt (x y : Q) : bool := negb (Qle_bool y x).

End Py.

(** ** The safe storage filename of [api.py]

    [safe_title = "".join(x for x in meta.get('title', 'Video')
                          if x.isalnum() or x in " _-")] and
    [filename = f"{safe_title.replace(' ', '_')}.mp4"]. *)

(** The test of the generator: an element that is not a string has no
    [isalnum] method. *)
Definition keeps (uni : N -> bool) (x : json) : res bool :=
  match x with
  | JStr s => Ok (isalnum uni s || contains (py " _-") s)
  | _ => Err AttributeError
  end.

Definition as_str (x : json) : pystr :=
  match x with
  | JStr s => s
  | _ => []
  end.

Fixpoint kept (uni : N -> bool) (xs : list json) : res (list pystr) :=
  match xs with
  | [] => Ok []
  | x :: xs' =>
      match keeps uni x with
      | Err e => Err e
      | Ok b =>
          match kept uni xs' with
          | Err e => Err e
          | Ok ys => Ok (if b then as_str x :: ys else ys)
          end
      end
  end.

Definition safe_title (uni : N -> bool) (title : json) : res pystr :=
  match Py.iter title with
  | Err e => Err e
  | Ok xs =>
      match kept uni xs with
      | Err e => Err e
      | Ok ys => Ok (concat ys)
      end
  end.

Definition mp4_name (stem : pystr) : pystr :=
  replace (py " ") (py "_") stem ++ py ".mp4".

(** The storage key of the URL-trigger pipeline for the title value [title]. *)
Definition filename (uni : N -> bool) (title : json) : res pystr :=
  match safe_title uni title with
  | Err e => Err e
  | Ok s => Ok (mp4_name s)
  end.

(** The storage key of the upload pipeline, [admin.py]:
    [file_name = f"{title.replace(' ', '_')}.mp4"]. *)
Definition file_name (title : pystr) : pystr := mp4_name title.

Definition ascii_only : N -> bool := fun _ => false.

(** ** Rows, events and the world *)

(** The dict inserted into [content_library].  The URL-trigger pipeline
    writes a [sub_category] key, the upload pipeline does not. *)
Record content_row := {
  video_url : pystr;
  title : json;
  transcript_text : pystr;
  category : json;
  sub_category : option json;
  duration_seconds : Z }.

(** The dict inserted into [questions]. *)
Record question_row := {
  video_id : Z;
  difficulty_phase : json;
  question_text : json;
  correct_answer : json;
  wrong_options : json }.

(** What the programs show: [print] in the service, [status_text.text],
    [st.error], [st.warning] and [st.balloons] in the form. *)
Inductive message :=
| MsgDownloading | MsgEmptyUrl | MsgStarted | MsgDownloadFailed
| MsgExtractingAudio | MsgVideoTooShort | MsgAudioError
| MsgTranscribing | MsgTranscriptTooShort
| MsgAnalyzing | MsgRawOutput | MsgJsonError
| MsgUploading | MsgUploadError
| MsgSaving | MsgSaved (n : nat) | MsgNoQuestions | MsgDatabaseSaveError
| MsgPipelineComplete
| MsgProcessingError | MsgGenerating | MsgDone | MsgBalloons
| MsgPleaseUpload.

(** The two prompt templates. *)
Inductive prompt := ApiPrompt | AdminPrompt.

(** Every request to the outside, in the order it is made. *)
Inductive event :=
| Say (m : message)
| Progress (n : Z)
| EvDownload (url : pystr)
| EvSaveUpload (path : pystr)
| EvOpenClip (path : pystr)
| EvWriteAudio (path : pystr)
| EvCloseClip
| EvTranscribe (path : pystr)
| EvChat (p : prompt) (transcript_prefix : pystr)
| EvUpload (key : pystr)
| EvInsertContent (row : content_row)
| EvInsertQuestions (rows : list question_row)
| EvRemove (path : pystr).

Record world := {
  fs : gmap pystr (list N);               (* local files: path to bytes *)
  videos : gmap pystr (list N);           (* the storage bucket "videos" *)
  db_content_library : list (Z * content_row);   (* id, row *)
  db_questions : list question_row;
  log : list event }.

Definition empty_world : world :=
  {| fs := ∅; videos := ∅; db_content_library := []; db_questions := [];
     log := [] |}.

(** An opened [VideoFileClip]: its duration and, for each path, the bytes
    that [video.audio.write_audiofile(path)] writes there, if that call
    succeeds.  The call fails at every path when the clip has no audio
    track ([video.audio] is [None]), and at a path from whose extension the
    library cannot take an audio codec. *)
Record clip := {
  clip_duration : Q;
  clip_audio : pystr -> option (list N) }.

(** What the chat completion gives back. *)
Inductive reply :=
| NoReply                 (* the request raised *)
| NotJson                 (* a message that [json.loads] rejects *)
| Parsed (v : json).

(** The behaviour of everything outside the repository.  A run makes each
    kind of request at most once, so an oracle per request describes every
    behaviour the services can show to one run. *)
Record env := {
  unicode_alnum : N -> bool;
  ydl : pystr -> option (pystr * option pystr * list N);
      (* url to prepared file name, title of the source, bytes; None: raises *)
  temp_name : pystr;                      (* NamedTemporaryFile(...).name *)
  decode : list N -> option clip;          (* VideoFileClip on these bytes *)
  whisper : list N -> option pystr;
  gpt : prompt -> pystr -> reply;
  storage_accepts : pystr -> list N -> bool;
  public_url_of : pystr -> pystr;
  content_insert : content_row -> option Z;       (* the id assigned *)
  questions_insert : list question_row -> bool }.

(** ** The monad of a run *)

Inductive outcome (A : Type) :=
| Val (a : A)             (* the block ran to its end *)
| Returned                (* a [return] statement ended the function *)
| Raised (e : exn).       (* an exception is propagating *)
Arguments Val {A} a.
Arguments Returned {A}.
Arguments Raised {A} e.

Definition M (A : Type) : Type := world -> outcome A * world.

#[global] Instance M_ret : MRet M := fun A a w => (Val a, w).

#[global] Instance M_bind : MBind M := fun A B f m w =>
  match m w with
  | (Val a, w') => f a w'
  | (Returned, w') => (Returned, w')
  | (Raised e, w') => (Raised e, w')
  end.

Definition return_ {A : Type} : M A := fun w => (Returned, w).

Definition raise {A : Type} (e : exn) : M A := fun w => (Raised e, w).

Definition lift {A : Type} (r : res A) : M A :=
  match r with
  | Ok a => mret a
  | Err e => raise e
  end.

(** [try: body / except Exception as e: handler]. *)
Definition try_except {A : Type} (body : M A) (handler : exn -> M A) : M A :=
  fun w =>
    match body w with
    | (Raised e, w') => handler e w'
    | r => r
    end.

Definition emit (e : event) : M unit := fun w =>
  (Val tt,
   {| fs := fs w; videos := videos w;
      db_content_library := db_content_library w;
      db_questions := db_questions w; log := log w ++ [e] |}).

Definition say (m : message) : M unit := emit (Say m).

Definition write_file (path : pystr) (data : list N) : M unit := fun w =>
  (Val tt,
   {| fs := <[path := data]> (fs w); videos := videos w;
      db_content_library := db_content_library w;
      db_questions := db_questions w; log := log w |}).

(** [open(path, 'rb')] and reading it. *)
Definition read_file (path : pystr) : M (list N) := fun w =>
  match fs w !! path with
  | Some data => (Val data, w)
  | None => (Raised FileNotFoundError, w)
  end.

Definition path_exists (path : pystr) : M bool := fun w =>
  (Val (bool_decide (is_Some (fs w !! path))), w).

Definition unlink (path : pystr) : M unit := fun w =>
  (Val tt,
   {| fs := delete path (fs w); videos := videos w;
      db_content_library := db_content_library w;
      db_questions := db_questions w; log := log w |}).

(** [os.remove(path)]. *)
Definition os_remove (path : pystr) : M unit :=
  _ ← read_file path;
  emit (EvRemove path);;
  unlink path.

Definition put_object (key : pystr) (data : list N) : M unit := fun w =>
  (Val tt,
   {| fs := fs w; videos := <[key := data]> (videos w);
      db_content_library := db_content_library w;
      db_questions := db_questions w; log := log w |}).

Definition add_content (id : Z) (row : content_row) : M unit := fun w =>
  (Val tt,
   {| fs := fs w; videos := videos w;
      db_content_library := db_content_library w ++ [(id, row)];
      db_questions := db_questions w; log := log w |}).

Definition add_questions (rows : list question_row) : M unit := fun w =>
  (Val tt,
   {| fs := fs w; videos := videos w;
      db_content_library := db_content_library w;
      db_questions := db_questions w ++ rows; log := log w |}).

(** [transcript_text[:15000]]. *)
Definition prompt_limit : nat := Z.to_nat 15000.

(** ** The calls to the services *)

Section Services.

Variable E : env.

(** [VideoFileClip(path)]. *)
Definition VideoFileClip (path : pystr) : M clip :=
  emit (EvOpenClip path);;
  data ← read_file path;
  match decode E data with
  | Some c => mret c
  | None => raise ServiceError
  end.

(** [video.audio.write_audiofile(audio_path, logger=None)]: the outcome
    depends on the path as well as on the clip, and a call that fails
    raises with nothing written. *)
Definition write_audiofile (video : clip) (audio_path : pystr) : M unit :=
  match clip_audio video audio_path with
  | Some a => emit (EvWriteAudio audio_path);; write_file audio_path a
  | None => raise ServiceError
  end.

(** [with open(audio_path, "rb") as f:
       client.audio.transcriptions.create(model="whisper-1", file=f)],
    then [.text]. *)
Definition transcribe (audio_path : pystr) : M pystr :=
  data ← read_file audio_path;
  emit (EvTranscribe audio_path);;
  match whisper E data with
  | Some text => mret text
  | None => raise ServiceError
  end.

(** [client.chat.completions.create(...)] with the transcript prefix spliced
    into the prompt [p]; gives [response.choices[0].message.content]. *)
Definition chat_completion (p : prompt) (transcript_prefix : pystr) : M reply :=
  emit (EvChat p transcript_prefix);;
  match gpt E p transcript_prefix with
  | NoReply => raise ServiceError
  | r => mret r
  end.

Definition json_loads (r : reply) : M json :=
  match r with
  | Parsed v => mret v
  | _ => raise JSONDecodeError
  end.

(** [with open(path, 'rb') as f:
       supabase.storage.from_("videos").upload(path=key, file=f,
         file_options={..., "x-upsert": "true"})]: the object under [key] is
    created or replaced. *)
Definition storage_upload (key path : pystr) : M unit :=
  data ← read_file path;
  emit (EvUpload key);;
  if storage_accepts E key data then put_object key data
  else raise ServiceError.

(** [supabase.table("content_library").insert(row).execute()] and
    [.data[0]['id']]. *)
Definition insert_content (row : content_row) : M Z :=
  emit (EvInsertContent row);;
  match content_insert E row with
  | Some id => add_content id row;; mret id
  | None => raise ServiceError
  end.

(** [supabase.table("questions").insert(rows).execute()]. *)
Definition insert_questions (rows : list question_row) : M unit :=
  emit (EvInsertQuestions rows);;
  if questions_insert E rows then add_questions rows
  else raise ServiceError.

End Services.

#[global] Instance res_ret : MRet res := fun A a => Ok a.

#[global] Instance res_bind : MBind res := fun A B f r =>
  match r with
  | Ok a => f a
  | Err e => Err e
  end.


(** ** The URL-trigger entry point, [api.py] *)

Module Api.

Section Pipeline.

Variable E : env.

Definition download_video (url : pystr) : M (pystr * pystr) :=
  say MsgDownloading;;
  emit (EvDownload url);;
  match ydl E url with
  | Some (path, source_title, data) =>
      write_file path data;;
      mret (path, default (py "Unknown") source_title)
  | None => raise ServiceError
  end.

(** [if os.path.exists(path): os.remove(path)]. *)
Definition remove_if_exists (path : pystr) : M unit :=
  there ← path_exists path;
  if (there : bool) then os_remove path else mret tt.

(** One element of [q_inserts]; [q.get] needs [q] to be a dict. *)
Definition question_insert (new_id : Z) (q : json) : res question_row :=
  stage ← Py.get q (py "stage") (JInt 0);
  text ← Py.get q (py "q") (JStr (py "Error"));
  correct ← Py.get q (py "correct") (JStr (py "Error"));
  wrong ← Py.get q (py "wrong") (JArr []);
  mret {| video_id := new_id; difficulty_phase := stage;
          question_text := text; correct_answer := correct;
          wrong_options := wrong |}.

Definition run_pipeline (url : pystr) : M unit :=
  if bool_decide (url = []) then say MsgEmptyUrl;; return_ else
  say MsgStarted;;
  (* 1. Download *)
  '(video_path, source_title) ←
    try_except (download_video url)
               (fun _ => say MsgDownloadFailed;; return_);
  (* 2. Extract Audio *)
  say MsgExtractingAudio;;
  let audio_path := replace (py ".mp4") (py ".mp3") video_path in
  duration ←
    try_except
      (video ← VideoFileClip E video_path;
       if Py.lt (clip_duration video) 5
       then say MsgVideoTooShort;; emit EvCloseClip;; return_
       else
         write_audiofile video audio_path;;
         emit EvCloseClip;;
         mret (clip_duration video))
      (fun _ => say MsgAudioError;; return_);
  (* 3. Transcribe *)
  say MsgTranscribing;;
  transcript ← transcribe E audio_path;
  if (length transcript <? 20)%nat
  then say MsgTranscriptTooShort;; return_ else
  (* 4. AI Analysis *)
  say MsgAnalyzing;;
  '(meta, questions) ←
    try_except
      (raw_content ← chat_completion E ApiPrompt (take prompt_limit transcript);
       say MsgRawOutput;;
       ai_data ← json_loads raw_content;
       meta ← lift (Py.get ai_data (py "metadata") (JObj []));
       questions ← lift (Py.get ai_data (py "questions") (JArr []));
       mret (meta, questions))
      (fun _ => say MsgJsonError;; return_);
  (* 5. Upload Video *)
  say MsgUploading;;
  shown ← lift (Py.get meta (py "title") (JStr (py "Video")));
  key ← lift (filename (unicode_alnum E) shown);
  public_url ←
    try_except
      (storage_upload E key video_path;;
       mret (public_url_of E key))
      (fun _ => say MsgUploadError;; return_);
  (* 6. Save DB *)
  say MsgSaving;;
  category_val ← lift (Py.get meta (py "category") (JStr (py "General")));
  sub_cat_val ← lift (Py.get meta (py "sub_category") JNull);
  stored_title ← lift (Py.get meta (py "title") (JStr (py "Untitled")));
  let vid_data :=
    {| video_url := public_url; title := stored_title;
       transcript_text := transcript; category := category_val;
       sub_category := Some sub_cat_val;
       duration_seconds := Py.int duration |} in
  try_except
    (new_id ← insert_content E vid_data;
     (* 7. Insert Questions *)
     if Py.truthy questions then
       qs ← lift (Py.iter questions);
       q_inserts ← lift (Py.for_each (question_insert new_id) qs);
       insert_questions E q_inserts;;
       say (MsgSaved (length q_inserts))
     else say MsgNoQuestions)
    (fun _ => say MsgDatabaseSaveError);;
  (* Cleanup *)
  remove_if_exists video_path;;
  remove_if_exists audio_path;;
  say MsgPipelineComplete.

End Pipeline.






End Api.

(** ** The upload entry point, [admin.py] *)

Module Admin.

Section Pipeline.

Variable E : env.

Definition status (m : message) : M unit := emit (Say m).
Definition progress (n : Z) : M unit := emit (Progress n).

(** One element of [q_inserts]; [item['stage']] needs the key. *)
Definition question_insert (new_video_id : Z) (item : json) : res question_row :=
  stage ← Py.item item (py "stage");
  text ← Py.item item (py "q");
  correct ← Py.item item (py "correct");
  wrong ← Py.item item (py "wrong");
  mret {| video_id := new_video_id; difficulty_phase := stage;
          question_text := text; correct_answer := correct;
          wrong_options := wrong |}.

Definition process_video (uploaded_file : list N)
    (title category sub_category : pystr) : M unit :=
  (* 1. Save to Temp File *)
  let temp_video_path := temp_name E in
  emit (EvSaveUpload temp_video_path);;
  write_file temp_video_path uploaded_file;;
  status MsgExtractingAudio;;
  progress 10;;
  (* 2. Extract Audio *)
  let audio_path := py "temp_audio.mp3" in
  duration ←
    try_except
      (video ← VideoFileClip E temp_video_path;
       write_audiofile video audio_path;;
       emit EvCloseClip;;
       mret (clip_duration video))
      (fun _ => say MsgProcessingError;; return_);
  (* 3. Transcribe *)
  status MsgTranscribing;;
  progress 30;;
  transcript ← transcribe E audio_path;
  (* 4. Upload to Supabase Storage *)
  status MsgUploading;;
  progress 50;;
  let key := file_name title in
  storage_upload E key temp_video_path;;
  let public_url := public_url_of E key in
  (* 5. Generate Questions (AI) *)
  status MsgGenerating;;
  progress 70;;
  response ← chat_completion E AdminPrompt (take prompt_limit transcript);
  questions_json ← json_loads response;
  (* 6. Save to Database *)
  status MsgSaving;;
  progress 90;;
  let full_category :=
    if bool_decide (sub_category = []) then category
    else category ++ py " > " ++ sub_category in
  let video_data :=
    {| video_url := public_url; title := JStr title;
       transcript_text := transcript; category := JStr full_category;
       sub_category := None;
       duration_seconds := Py.int duration |} in
  new_video_id ← insert_content E video_data;
  questions ← lift (Py.item questions_json (py "questions"));
  items ← lift (Py.iter questions);
  q_inserts ← lift (Py.for_each (question_insert new_video_id) items);
  insert_questions E q_inserts;;
  (* Cleanup *)
  os_remove temp_video_path;;
  os_remove audio_path;;
  progress 100;;
  status MsgDone;;
  say MsgBalloons.


End Pipeline.

End Admin.

(** ** The login gate of the form, [admin.py]

    [st.session_state] is a dict from keys to what the script and its
    widgets put there: the flag [authenticated] and the text of the password
    field.  [st.secrets] holds the values of the secrets file. *)

Module Login.

Inductive value :=
| VBool (b : bool)
| VStr (s : pystr).

(** [not v] is the negation of this. *)
Definition truthy (v : value) : bool :=
  match v with
  | VBool b => b
  | VStr s => negb (bool_decide (s = []))
  end.

(** [v == x] for a session value and a secret: strings are equal to equal
    strings, a bool is equal to the same bool and to the integer 0 or 1 it
    stands for, and nothing else is equal. *)
Definition eq (v : value) (x : json) : bool :=
  match v, x with
  | VStr s, JStr t => bool_decide (s = t)
  | VBool b, JBool c => Bool.eqb b c
  | VBool b, JInt n => (n =? Z.b2z b)
  | _, _ => false
  end.

(** What [st.error] shows. *)
Inductive notice := IncorrectPassword.

(** The callback of the password field:
    [if st.session_state["password_input"] == st.secrets["ADMIN_PASSWORD"]:
       st.session_state.authenticated = True
       del st.session_state["password_input"]
     else: st.error(...)]. *)
Definition check_password (secrets : gmap pystr json)
    (session_state : gmap pystr value)
    : res (gmap pystr value * list notice) :=
  match session_state !! py "password_input" with
  | None => Err KeyError
  | Some typed =>
      match secrets !! py "ADMIN_PASSWORD" with
      | None => Err KeyError
      | Some secret =>
          if eq typed secret
          then Ok (delete (py "password_input")
                     (<[py "authenticated" := VBool true]> session_state), [])
          else Ok (session_state, [IncorrectPassword])
      end
  end.

(** [if "authenticated" not in st.session_state:
       st.session_state.authenticated = False]. *)
Definition init (session_state : gmap pystr value) : gmap pystr value :=
  match session_state !! py "authenticated" with
  | Some _ => session_state
  | None => <[py "authenticated" := VBool false]> session_state
  end.

(** The top of the script: the session state it leaves, and whether the
    script goes on past
    [if not st.session_state.authenticated: ...; st.stop()]. *)
Definition gate (session_state : gmap pystr value)
    : gmap pystr value * bool :=
  let session_state := init session_state in
  (session_state,
   match session_state !! py "authenticated" with
   | Some flag => truthy flag
   | None => false
   end).

End Login.

(** ** Scenarios

    A family of environments in which every service answers, used to run
    the two entry points on concrete inputs: the media lasts [seconds], the
    recogniser hears [heard] and the chat model sends [answer]. *)

(** An audio track that is written to a path ending in [.mp3], and to no
    other. *)
Definition mp3_track (track : list N) (path : pystr) : option (list N) :=
  if bool_decide (drop (length path - 4) path = py ".mp3") then Some track
  else None.

Definition scenario (seconds : Q) (heard : pystr) (answer : reply) : env :=
  {| unicode_alnum := ascii_only;
     ydl := fun _ => Some (py "temp_x1.mp4", Some (py "Source"), [1; 2; 3]%N);
     temp_name := py "/tmp/tmpab12.mp4";
     decode := fun _ =>
       Some {| clip_duration := seconds; clip_audio := mp3_track [7; 7]%N |};
     whisper := fun _ => Some heard;
     gpt := fun _ _ => answer;
     storage_accepts := fun _ _ => true;
     public_url_of := fun key => py "https://store/videos/" ++ key;
     content_insert := fun _ => Some 1;
     questions_insert := fun _ => true |}.

Definition gravity : pystr :=
  py "This is a valid transcript about gravity and motion in classical mechanics.".

Definition draft (stage : Z) : json :=
  JObj [(py "stage", JInt stage); (py "q", JStr (py "Why?"));
        (py "correct", JStr (py "Yes"));
        (py "wrong", JArr [JStr (py "a"); JStr (py "b"); JStr (py "c")])].

Definition five_questions : json :=
  JObj [(py "metadata",
         JObj [(py "title", JStr (py "Gravity: an intro"));
               (py "category", JStr (py "Physics"));
               (py "sub_category", JStr (py "Mechanics"))]);
        (py "questions", JArr [draft 0; draft 1; draft 2; draft 3; draft 4])].

Definition a_url : pystr := py "https://example.org/watch?v=x1".

(** Scenario A of the specification: thirty seconds of video, a transcript
    about gravity, five questions. *)
Definition scenario_A : env := scenario 30 gravity (Parsed five_questions).

(** Scenario B of the specification: three seconds of video. *)
Definition scenario_B : env := scenario 3 gravity (Parsed five_questions).

(** Scenario C of the specification: a transcript of five characters. *)
Definition scenario_C : env := scenario 30 (py "Hello") (Parsed five_questions).

(** Scenario D of the specification: the response is an object without
    metadata and with an empty list of questions. *)
Definition no_metadata : json := JObj [(py "questions", JArr [])].

Definition scenario_D : env := scenario 30 gravity (Parsed no_metadata).

(** A response that is valid JSON but not an object. *)
Definition scenario_array : env := scenario 30 gravity (Parsed (JArr [])).

(** A response whose only draft has stage 7 and a single wrong option. *)
Definition off_range : json :=
  JObj [(py "questions",
         JArr [JObj [(py "stage", JInt 7); (py "q", JStr (py "Why?"));
                     (py "correct", JStr (py "Yes"));
                     (py "wrong", JArr [JStr (py "a")])]])].

Definition scenario_off_range : env := scenario 30 gravity (Parsed off_range).

(** The row that [Api.question_insert] builds from that draft. *)
Definition off_range_row : question_row :=
  {| video_id := 1; difficulty_phase := JInt 7;
     question_text := JStr (py "Why?"); correct_answer := JStr (py "Yes");
     wrong_options := JArr [JStr (py "a")] |}.

(** The media decoder rejects every file. *)
Definition scenario_undecodable : env :=
  {| unicode_alnum := ascii_only;
     ydl := ydl scenario_A;
     temp_name := temp_name scenario_A;
     decode := fun _ => None;
     whisper := whisper scenario_A;
     gpt := gpt scenario_A;
     storage_accepts := storage_accepts scenario_A;
     public_url_of := public_url_of scenario_A;
     content_insert := content_insert scenario_A;
     questions_insert := questions_insert scenario_A |}.

(** ** Vocabulary of the specification *)

(** The stages of the orchestrator's state machine. *)
Inductive stage :=
| Acquiring | ExtractingAudio | Transcribing | Synthesizing | Publishing
| Persisting.

#[global] Instance stage_eq_dec : EqDecision stage.
Proof. solve_decision. Defined.

(** The stage to which a request belongs; what is only shown, and the final
    cleanup, belong to none. *)
Definition stage_of (e : event) : option stage :=
  match e with
  | EvDownload _ | EvSaveUpload _ => Some Acquiring
  | EvOpenClip _ | EvWriteAudio _ | EvCloseClip => Some ExtractingAudio
  | EvTranscribe _ => Some Transcribing
  | EvChat _ _ => Some Synthesizing
  | EvUpload _ => Some Publishing
  | EvInsertContent _ | EvInsertQuestions _ => Some Persisting
  | Say _ | Progress _ | EvRemove _ => None
  end.

(** Successive requests of one stage count as one visit of it. *)
Fixpoint visits (l : list stage) : list stage :=
  match l with
  | [] => []
  | s :: l' =>
      match l' with
      | s' :: _ => if decide (s = s') then visits l' else s :: visits l'
      | [] => [s]
      end
  end.

(** The stages a run went through, in order. *)
Definition stage_trace (evs : list event) : list stage :=
  visits (omap stage_of evs).

(** The order of section 4.7 of the specification. *)
Definition linear_order : list stage :=
  [Acquiring; ExtractingAudio; Transcribing; Synthesizing; Publishing;
   Persisting].

(** The order of the numbered steps of [process_video]. *)
Definition upload_form_order : list stage :=
  [Acquiring; ExtractingAudio; Transcribing; Publishing; Synthesizing;
   Persisting].

Fixpoint is_prefix (l order : list stage) : bool :=
  match l, order with
  | [], _ => true
  | _ :: _, [] => false
  | a :: l', b :: order' => bool_decide (a = b) && is_prefix l' order'
  end.

Definition is_transcribe (e : event) : bool :=
  match e with
  | EvTranscribe _ => true
  | _ => false
  end.

(** The requests that create a durable entity. *)
Definition is_durable (e : event) : bool :=
  match e with
  | EvUpload _ | EvInsertContent _ | EvInsertQuestions _ => true
  | _ => false
  end.

(** Section 4.5 in its own words: keep the characters that are alphanumeric,
    space, hyphen or underscore, then turn spaces into underscores (and add
    the extension). *)
Definition allowed (uni : N -> bool) (c : N) : bool :=
  isalnum_cp uni c || (c =? 32)%N || (c =? 45)%N || (c =? 95)%N.

Definition underscore (c : N) : N := if (c =? 32)%N then 95%N else c.

Definition sanitized (uni : N -> bool) (s : pystr) : pystr :=
  underscore <$> filter (fun c => allowed uni c = true) s.

Definition spec_key (uni : N -> bool) (s : pystr) : pystr :=
  sanitized uni s ++ py ".mp4".

(** The question entries of a decoded response: the elements of its
    [questions] array. *)
Definition entries (ai_data : json) : list json :=
  match Py.get ai_data (py "questions") (JArr []) with
  | Ok (JArr l) => l
  | _ => []
  end.

(** A stage in the range 0 to 4. *)
Definition stage_in_range (v : json) : bool :=
  match v with
  | JInt n => (0 <=? n) && (n <=? 4)
  | _ => false
  end.

(** A list of exactly three wrong options. *)
Definition three_options (v : json) : bool :=
  match v with
  | JArr [_; _; _] => true
  | _ => false
  end.

(** The response carries no title: its metadata, if it is a dict, has no
    [title] key. *)
Definition omits_title (ai_data : json) : Prop :=
  match Py.get ai_data (py "metadata") (JObj []) with
  | Ok (JObj fields) => Py.lookup_key (py "title") fields = None
  | _ => True
  end.

(** The database block of [run_pipeline] reported a failure. *)
Definition db_error (e : event) : bool :=
  match e with
  | Say MsgDatabaseSaveError => true
  | _ => false
  end.

(** A draft whose stage, where it has one, is in range and whose wrong
    options, where it has them, are three. *)
Definition draft_in_range (q : json) : Prop :=
  match q with
  | JObj fields =>
      match Py.lookup_key (py "stage") fields with
      | Some v => stage_in_range v = true
      | None => True
      end /\
      match Py.lookup_key (py "wrong") fields with
      | Some v => three_options v = true
      | None => True
      end
  | _ => True
  end.

(** A persisted question with a stage in range and three wrong options, or
    the fallback of [q.get('wrong', [])] in their place. *)
Definition row_in_range (row : question_row) : Prop :=
  stage_in_range (difficulty_phase row) = true /\
  (three_options (wrong_options row) = true \/ wrong_options row = JArr []).

(** The SubmittedItem of the specification: what either entry point hands to
    its pipeline. *)
Inductive submission :=
| ByUrl (url : pystr)
| ByUpload (uploaded_file : list N) (title category sub_category : pystr).

(** One run, through the entry point that the submission came in by. *)
Definition run (E : env) (s : submission) : M unit :=
  match s with
  | ByUrl url => Api.run_pipeline E url
  | ByUpload uploaded_file title category sub_category =>
      Admin.process_video E uploaded_file title category sub_category
  end.

Definition prompt_of (s : submission) : prompt :=
  match s with
  | ByUrl _ => ApiPrompt
  | ByUpload _ _ _ _ => AdminPrompt
  end.

Definition question_insert_of (s : submission) : Z -> json -> res question_row :=
  match s with
  | ByUrl _ => Api.question_insert
  | ByUpload _ _ _ _ => Admin.question_insert
  end.

Definition order_of (s : submission) : list stage :=
  match s with
  | ByUrl _ => linear_order
  | ByUpload _ _ _ _ => upload_form_order
  end.

(** A run succeeded: it ran to its last statement and its database block
    reported no failure. *)
Definition succeeded (r : outcome unit) (evs : list event) : Prop :=
  r = Val tt /\ existsb db_error evs = false.

(** A form submission: five bytes of video, a title with a colon. *)
Definition a_form : submission :=
  ByUpload [5; 5; 5; 5; 5]%N (py "Gravity: an intro") (py "Science") [].

(** A row carries its draft: the draft is a dict, and the stage, the text,
    the answer and the wrong options of the row are those of the draft.
    Where the draft has no such field, the URL trigger has put 0, 'Error',
    'Error' and the empty list; the form gives no row for such a draft. *)
Definition carries_draft (s : submission) (q : json) (row : question_row)
    : Prop :=
  exists fields,
    q = JObj fields /\
    match s with
    | ByUrl _ =>
        difficulty_phase row =
          default (JInt 0) (Py.lookup_key (py "stage") fields) /\
        question_text row =
          default (JStr (py "Error")) (Py.lookup_key (py "q") fields) /\
        correct_answer row =
          default (JStr (py "Error")) (Py.lookup_key (py "correct") fields) /\
        wrong_options row =
          default (JArr []) (Py.lookup_key (py "wrong") fields)
    | ByUpload _ _ _ _ =>
        Py.lookup_key (py "stage") fields = Some (difficulty_phase row) /\
        Py.lookup_key (py "q") fields = Some (question_text row) /\
        Py.lookup_key (py "correct") fields = Some (correct_answer row) /\
        Py.lookup_key (py "wrong") fields = Some (wrong_options row)
    end.

(** What C10 says of one request of a run: an upload goes to "Video.mp4",
    a content row is titled "Untitled", and that title would not have given
    that key. *)
Definition stored_as_Video_titled_Untitled (uni : N -> bool) (e : event) : Prop :=
  match e with
  | EvUpload key => key = py "Video.mp4"
  | EvInsertContent row =>
      title row = JStr (py "Untitled") /\
      filename uni (title row) <> Ok (py "Video.mp4")
  | _ => True
  end.

(** *** More environments *)

(** The downloader fails. *)
Definition scenario_no_download : env :=
  {| unicode_alnum := ascii_only;
     ydl := fun _ => None;
     temp_name := temp_name scenario_A;
     decode := decode scenario_A;
     whisper := whisper scenario_A;
     gpt := gpt scenario_A;
     storage_accepts := storage_accepts scenario_A;
     public_url_of := public_url_of scenario_A;
     content_insert := content_insert scenario_A;
     questions_insert := questions_insert scenario_A |}.

(** The object store refuses every upload. *)
Definition scenario_storage_down : env :=
  {| unicode_alnum := ascii_only;
     ydl := ydl scenario_A;
     temp_name := temp_name scenario_A;
     decode := decode scenario_A;
     whisper := whisper scenario_A;
     gpt := gpt scenario_A;
     storage_accepts := fun _ _ => false;
     public_url_of := public_url_of scenario_A;
     content_insert := content_insert scenario_A;
     questions_insert := questions_insert scenario_A |}.

(** The [questions] table refuses every insert. *)
Definition scenario_questions_down : env :=
  {| unicode_alnum := ascii_only;
     ydl := ydl scenario_A;
     temp_name := temp_name scenario_A;
     decode := decode scenario_A;
     whisper := whisper scenario_A;
     gpt := gpt scenario_A;
     storage_accepts := storage_accepts scenario_A;
     public_url_of := public_url_of scenario_A;
     content_insert := content_insert scenario_A;
     questions_insert := fun _ => false |}.

(** The chat model does not answer. *)
Definition scenario_no_reply : env := scenario 30 gravity NoReply.

(** The response has [null] for its metadata. *)
Definition null_metadata : json :=
  JObj [(py "metadata", JNull); (py "questions", JArr [])].

Definition scenario_null_metadata : env :=
  scenario 30 gravity (Parsed null_metadata).

(** *** More vocabulary *)

(** The response is not a JSON object. *)
Definition not_an_object (r : reply) : Prop :=
  match r with
  | Parsed (JObj _) => False
  | _ => True
  end.

(** The response is not decoded at all. *)
Definition no_response (r : reply) : Prop :=
  match r with
  | Parsed _ => False
  | _ => True
  end.

(** The metadata of the response is there and is not an object. *)
Definition metadata_not_an_object (ai_data : json) : Prop :=
  match Py.get ai_data (py "metadata") (JObj []) with
  | Ok (JObj _) => False
  | _ => True
  end.

(** The title of the response, where it has one, is a string. *)
Definition title_is_string (ai_data : json) : Prop :=
  match Py.get ai_data (py "metadata") (JObj []) with
  | Ok (JObj fields) =>
      match Py.lookup_key (py "title") fields with
      | Some (JStr _) | None => True
      | Some _ => False
      end
  | _ => True
  end.

(** A request to a service, as opposed to something shown. *)
Definition is_request (e : event) : bool :=
  match stage_of e with
  | Some _ => true
  | None => false
  end.

(** The category that the form stores:
    [f"{category} > {sub_category}" if sub_category else category]. *)
Definition full_category (category sub_category : pystr) : pystr :=
  match sub_category with
  | [] => category
  | _ => category ++ py " > " ++ sub_category
  end.

(** The same services, with a downloader that reports no title. *)
Definition without_source_titles (E : env) : env :=
  {| unicode_alnum := unicode_alnum E;
     ydl := fun u =>
       match ydl E u with
       | Some (path, _, data) => Some (path, None, data)
       | None => None
       end;
     temp_name := temp_name E;
     decode := decode E;
     whisper := whisper E;
     gpt := gpt E;
     storage_accepts := storage_accepts E;
     public_url_of := public_url_of E;
     content_insert := content_insert E;
     questions_insert := questions_insert E |}.

(** A draft without its [wrong] field, and a response whose only draft it
    is. *)
Definition missing_wrong_draft : json :=
  JObj [(py "stage", JInt 0); (py "q", JStr (py "Why?"));
        (py "correct", JStr (py "Yes"))].

Definition missing_wrong : json :=
  JObj [(py "questions", JArr [missing_wrong_draft])].

Definition scenario_missing_wrong : env :=
  scenario 30 gravity (Parsed missing_wrong).

(** The row that [q.get] builds from that draft. *)
Definition missing_wrong_row : question_row :=
  {| video_id := 1; difficulty_phase := JInt 0;
     question_text := JStr (py "Why?"); correct_answer := JStr (py "Yes");
     wrong_options := JArr [] |}.

(** The content row of scenario A from the URL trigger, and from the
    form. *)
Definition row_A : content_row :=
  {| video_url := py "https://store/videos/Gravity_an_intro.mp4";
     title := JStr (py "Gravity: an intro");
     transcript_text := gravity;
     category := JStr (py "Physics");
     sub_category := Some (JStr (py "Mechanics"));
     duration_seconds := 30 |}.

Definition row_A_form : content_row :=
  {| video_url := py "https://store/videos/Gravity:_an_intro.mp4";
     title := JStr (py "Gravity: an intro");
     transcript_text := gravity;
     category := JStr (py "Science");
     sub_category := None;
     duration_seconds := 30 |}.

(** A secrets file and a session in which its password has been typed. *)
Definition a_secrets : gmap pystr json :=
  {[ py "ADMIN_PASSWORD" := JStr (py "s3cret") ]}.

Definition a_session : gmap pystr Login.value :=
  {[ py "password_input" := Login.VStr (py "s3cret") ]}.

(** The run of the URL [a_url], and of the form [a_form], from the empty
    world. *)
Definition url_run (E : env) : outcome unit * world :=
  run E (ByUrl a_url) empty_world.

Definition form_run (E : env) : outcome unit * world :=
  run E a_form empty_world.

(** The question rows of scenario A. *)
Definition rows_A : list question_row :=
  (fun n =>
     {| video_id := 1; difficulty_phase := JInt n;
        question_text := JStr (py "Why?"); correct_answer := JStr (py "Yes");
        wrong_options := JArr [JStr (py "a"); JStr (py "b"); JStr (py "c")] |})
  <$> [0; 1; 2; 3; 4].

(** ** Reasoning about runs

    [wp m w Q]: running [m] from [w] ends in an outcome and a world that
    satisfy [Q]. *)

Definition wp {A : Type} (m : M A) (w : world)
    (Q : outcome A -> world -> Prop) : Prop :=
  Q (m w).1 (m w).2.

Arguments replace : simpl never.
Arguments py : simpl never.
Arguments filename : simpl never.
Arguments file_name : simpl never.
Arguments Py.get : simpl never.
Arguments Py.item : simpl never.
Arguments Py.iter : simpl never.
Arguments Py.truthy : simpl never.
Arguments Py.for_each : simpl never.
Arguments Py.lt : simpl never.
Arguments Py.int : simpl never.
Arguments wp : simpl never.
Opaque prompt_limit.

(** ** The definitions on examples *)

Example replace_mp4 :
  replace (py ".mp4") (py ".mp3") (py "temp_ab.mp4") = py "temp_ab.mp3".
Proof. reflexivity. Qed.

Example replace_spaces :
  replace (py " ") (py "_") (py "a b  c") = py "a_b__c".
Proof. reflexivity. Qed.

Example replace_no_overlap :
  replace (py "aa") (py "b") (py "aaa") = py "ba".
Proof. reflexivity. Qed.

Example filename_example :
  filename ascii_only (JStr (py "What is: a 'Latent' demand?")) =
  Ok (py "What_is_a_Latent_demand.mp4").
Proof. reflexivity. Qed.

Example file_name_example :
  file_name (py "What is: a 'Latent' demand?") =
  py "What_is:_a_'Latent'_demand?.mp4".
Proof. reflexivity. Qed.

(** ** Rules of the run logic *)

Section Rules.

Context {A B : Type}.

Lemma wp_ret (a : A) w Q : Q (Val a) w -> wp (mret a) w Q.
Proof. done. Qed.

Lemma wp_return w (Q : outcome A -> world -> Prop) :
  Q Returned w -> wp return_ w Q.
Proof. done. Qed.

Lemma wp_raise e w (Q : outcome A -> world -> Prop) :
  Q (Raised e) w -> wp (raise e) w Q.
Proof. done. Qed.

Lemma wp_bind (m : M A) (f : A -> M B) w Q :
  wp m w (fun r w' =>
    match r with
    | Val a => wp (f a) w' Q
    | Returned => Q Returned w'
    | Raised e => Q (Raised e) w'
    end) ->
  wp (m ≫= f) w Q.
Proof.
  unfold wp, mbind, M_bind. destruct (m w) as [[a| |e] w']; done.
Qed.

Lemma wp_try (body : M A) handler w Q :
  wp body w (fun r w' =>
    match r with
    | Raised e => wp (handler e) w' Q
    | _ => Q r w'
    end) ->
  wp (try_except body handler) w Q.
Proof.
  unfold wp, try_except. destruct (body w) as [[a| |e] w']; done.
Qed.

Lemma wp_lift (r : res A) w Q :
  match r with Ok a => Q (Val a) w | Err e => Q (Raised e) w end ->
  wp (lift r) w Q.
Proof. destruct r; done. Qed.

End Rules.

Lemma wp_elim {A} (m : M A) w (Q : outcome A -> world -> Prop) :
  wp m w Q -> Q (m w).1 (m w).2.
Proof. done. Qed.

Ltac by_wp :=
  lazymatch goal with
  | |- ?m ?w = (?r, ?w') -> _ =>
      let H := fresh in
      intros H;
      generalize (f_equal fst H) (f_equal snd H);
      cbn [fst snd]; clear H; intros <- <-;
      pattern (m w).1, (m w).2; apply wp_elim
  end.

Lemma wp_emit e w Q :
  Q (Val tt)
    {| fs := fs w; videos := videos w;
       db_content_library := db_content_library w;
       db_questions := db_questions w; log := log w ++ [e] |} ->
  wp (emit e) w Q.
Proof. done. Qed.

Lemma wp_say m w Q :
  Q (Val tt)
    {| fs := fs w; videos := videos w;
       db_content_library := db_content_library w;
       db_questions := db_questions w; log := log w ++ [Say m] |} ->
  wp (say m) w Q.
Proof. done. Qed.

Lemma wp_status m w Q :
  Q (Val tt)
    {| fs := fs w; videos := videos w;
       db_content_library := db_content_library w;
       db_questions := db_questions w; log := log w ++ [Say m] |} ->
  wp (Admin.status m) w Q.
Proof. done. Qed.

Lemma wp_progress n w Q :
  Q (Val tt)
    {| fs := fs w; videos := videos w;
       db_content_library := db_content_library w;
       db_questions := db_questions w; log := log w ++ [Progress n] |} ->
  wp (Admin.progress n) w Q.
Proof. done. Qed.

Lemma wp_write_file path data w Q :
  Q (Val tt)
    {| fs := <[path := data]> (fs w); videos := videos w;
       db_content_library := db_content_library w;
       db_questions := db_questions w; log := log w |} ->
  wp (write_file path data) w Q.
Proof. done. Qed.

Lemma wp_unlink path w Q :
  Q (Val tt)
    {| fs := delete path (fs w); videos := videos w;
       db_content_library := db_content_library w;
       db_questions := db_questions w; log := log w |} ->
  wp (unlink path) w Q.
Proof. done. Qed.

Lemma wp_put_object key data w Q :
  Q (Val tt)
    {| fs := fs w; videos := <[key := data]> (videos w);
       db_content_library := db_content_library w;
       db_questions := db_questions w; log := log w |} ->
  wp (put_object key data) w Q.
Proof. done. Qed.

Lemma wp_add_content id row w Q :
  Q (Val tt)
    {| fs := fs w; videos := videos w;
       db_content_library := db_content_library w ++ [(id, row)];
       db_questions := db_questions w; log := log w |} ->
  wp (add_content id row) w Q.
Proof. done. Qed.

Lemma wp_add_questions rows w Q :
  Q (Val tt)
    {| fs := fs w; videos := videos w;
       db_content_library := db_content_library w;
       db_questions := db_questions w ++ rows; log := log w |} ->
  wp (add_questions rows) w Q.
Proof. done. Qed.

Lemma wp_read_file path w Q :
  match fs w !! path with
  | Some data => Q (Val data) w
  | None => Q (Raised FileNotFoundError) w
  end ->
  wp (read_file path) w Q.
Proof. unfold wp, read_file. by destruct (fs w !! path). Qed.

Lemma wp_path_exists path w Q :
  match fs w !! path with
  | Some _ => Q (Val true) w
  | None => Q (Val false) w
  end ->
  wp (path_exists path) w Q.
Proof.
  unfold wp, path_exists. by destruct (fs w !! path).
Qed.

Ltac wp_simpl := cbn beta iota delta [fst snd fs videos db_content_library db_questions log].

Ltac split_match :=
  try match goal with
      | H : ?x = _ |- match ?x with _ => _ end => rewrite H
      end;
  lazymatch goal with
  | |- match ?x with _ => _ end =>
      lazymatch x with
      | Some _ => idtac
      | None => idtac
      | _ => destruct x eqn:?
      end
  | |- _ => idtac
  end.

Ltac wp_step :=
  lazymatch goal with
  | |- wp (mbind _ _) _ _ => apply wp_bind
  | |- wp (try_except _ _) _ _ => apply wp_try
  | |- wp (mret _) _ _ => apply wp_ret
  | |- wp return_ _ _ => apply wp_return
  | |- wp (raise _) _ _ => apply wp_raise
  | |- wp (lift ?r) _ _ =>
      apply wp_lift;
      lazymatch r with
      | Ok _ => idtac
      | Err _ => idtac
      | _ => destruct r eqn:?
      end
  | |- wp (say _) _ _ => apply wp_say
  | |- wp (Admin.status _) _ _ => apply wp_status
  | |- wp (Admin.progress _) _ _ => apply wp_progress
  | |- wp (emit _) _ _ => apply wp_emit
  | |- wp (write_file _ _) _ _ => apply wp_write_file
  | |- wp (unlink _) _ _ => apply wp_unlink
  | |- wp (put_object _ _) _ _ => apply wp_put_object
  | |- wp (add_content _ _) _ _ => apply wp_add_content
  | |- wp (add_questions _) _ _ => apply wp_add_questions
  | |- wp (read_file _) _ _ =>
      apply wp_read_file; wp_simpl; rewrite ?lookup_insert_eq; split_match
  | |- wp (path_exists _) _ _ =>
      apply wp_path_exists; wp_simpl; rewrite ?lookup_insert_eq; split_match
  | |- wp (if ?b then _ else _) _ _ => destruct b eqn:?
  | |- wp (match ?x with _ => _ end) _ _ =>
      first [ is_var x; destruct x | destruct x eqn:? ]
  | |- wp (let '(_, _) := ?x in _) _ _ =>
      first [ is_var x; destruct x | destruct x eqn:? ]
  | |- wp (Api.run_pipeline _ _) _ _ => unfold Api.run_pipeline
  | |- wp (Api.download_video _ _) _ _ => unfold Api.download_video
  | |- wp (Api.remove_if_exists _) _ _ => unfold Api.remove_if_exists
  | |- wp (Admin.process_video _ _ _ _ _) _ _ => unfold Admin.process_video
  | |- wp (VideoFileClip _ _) _ _ => unfold VideoFileClip
  | |- wp (write_audiofile _ _) _ _ => unfold write_audiofile
  | |- wp (transcribe _ _) _ _ => unfold transcribe
  | |- wp (chat_completion _ _ _) _ _ => unfold chat_completion
  | |- wp (json_loads _) _ _ => unfold json_loads
  | |- wp (storage_upload _ _ _) _ _ => unfold storage_upload
  | |- wp (insert_content _ _) _ _ => unfold insert_content
  | |- wp (insert_questions _ _) _ _ => unfold insert_questions
  | |- wp (os_remove _) _ _ => unfold os_remove
  end; wp_simpl.

Ltac wp_run := repeat wp_step.

(** ** The storage key *)

Section StorageKey.

Variable uni : N -> bool.

Lemma replace_space s : replace (py " ") (py "_") s = underscore <$> s.
Proof.
  unfold replace. change (py " ") with [32%N]. change (py "_") with [95%N].
  induction s as [|c s IH]; [done|].
  cbn [replace_from startswith length Nat.sub fmap list_fmap].
  rewrite IH. unfold underscore. rewrite (N.eqb_sym 32 c), andb_true_r.
  by destruct (c =? 32)%N.
Qed.

Lemma keeps_char c : keeps uni (JStr [c]) = Ok (allowed uni c).
Proof.
  unfold keeps, allowed. f_equal.
  change (py " _-") with [32%N; 95%N; 45%N]. cbn.
  destruct (isalnum_cp uni c), (c =? 32)%N, (c =? 95)%N, (c =? 45)%N; done.
Qed.

Lemma kept_chars s :
  kept uni ((fun c => JStr [c]) <$> s) =
  Ok ((fun c => [c]) <$> filter (fun c => allowed uni c = true) s).
Proof.
  induction s as [|c s IH]; [done|].
  cbn [fmap list_fmap kept]. rewrite keeps_char.
  change (list_fmap _ _ ?f ?l) with (f <$> l). rewrite IH.
  rewrite filter_cons. destruct (allowed uni c) eqn:Hc.
  - rewrite decide_True by done. done.
  - rewrite decide_False by done. done.
Qed.

Lemma concat_singletons (s : pystr) : concat ((fun c => [c]) <$> s) = s.
Proof. induction s as [|c s IH]; [done|]. cbn. by rewrite IH. Qed.

(** On a title that is a string, the generator of [api.py] keeps exactly the
    allowed characters. *)
Lemma safe_title_str s :
  safe_title uni (JStr s) = Ok (filter (fun c => allowed uni c = true) s).
Proof.
  unfold safe_title, Py.iter. rewrite kept_chars.
  by rewrite concat_singletons.
Qed.

(** The key of the URL-trigger pipeline is the key that section 4.5
    describes. *)
Lemma filename_spec s : filename uni (JStr s) = Ok (spec_key uni s).
Proof.
  unfold filename. rewrite safe_title_str. unfold mp4_name, spec_key, sanitized.
  by rewrite replace_space.
Qed.

Lemma underscore_allowed c :
  allowed uni c = true ->
  allowed uni (underscore c) = true /\ underscore (underscore c) = underscore c.
Proof.
  unfold underscore. destruct (c =? 32)%N eqn:Hc; [done|].
  rewrite Hc. done.
Qed.

(** Sanitising a sanitised title changes nothing. *)
Lemma sanitized_idempotent s : sanitized uni (sanitized uni s) = sanitized uni s.
Proof.
  unfold sanitized. induction s as [|c s IH]; [done|].
  rewrite (filter_cons _ c s).
  destruct (decide (allowed uni c = true)) as [Hc|Hc]; [|done].
  destruct (underscore_allowed c Hc) as [Ha Hu].
  rewrite fmap_cons, (filter_cons _ (underscore c)), decide_True by done.
  rewrite fmap_cons, Hu. f_equal. apply IH.
Qed.

(** The key of a string title has only allowed characters before its
    extension, none of them a space. *)
Lemma sanitized_chars s c :
  c ∈ sanitized uni s -> allowed uni c = true /\ c <> 32%N.
Proof.
  unfold sanitized. intros [c0 [-> Hc0]]%list_elem_of_fmap.
  apply list_elem_of_filter in Hc0 as [Hc0 _].
  split; [by apply underscore_allowed|].
  unfold underscore. destruct (c0 =? 32)%N eqn:E0; [done|].
  by apply N.eqb_neq.
Qed.

End StorageKey.

(** The upload pipeline only replaces the spaces of the title. *)
Lemma file_name_spec s : file_name s = (underscore <$> s) ++ py ".mp4".
Proof. unfold file_name, mp4_name. by rewrite replace_space. Qed.

(** Uploading under a key that is taken replaces the object: the bucket
    holds one object under the key, the one uploaded last. *)
Lemma upsert_overwrites (bucket : gmap pystr (list N)) key d1 d2 :
  <[key := d2]> (<[key := d1]> bucket) = <[key := d2]> bucket.
Proof. apply insert_insert_eq. Qed.

(** Publishing the same title again leaves one object under the one key. *)
Example republish_overwrites :
  size (videos (run scenario_A (ByUrl a_url) empty_world).2) = 1%nat /\
  size (videos (run scenario_A (ByUrl a_url)
                  (run scenario_A (ByUrl a_url) empty_world).2).2) = 1%nat.
Proof. split; vm_compute; reflexivity. Qed.

(** ** The URL-trigger pipeline, run symbolically *)

Ltac by_wp_of m w := pattern (m w).1, (m w).2; apply wp_elim.

(** Run to the end, closing with [tac] the branches it can close on the
    way. *)
Ltac wp_run_with tac := repeat (wp_step; try (solve [tac])).

(** Bring the log of a leaf into the shape [log w ++ evs]. *)
Ltac tidy_log := rewrite <- ?app_assoc; cbn [app].

Ltac log_done := tidy_log; eexists; split; [reflexivity | reflexivity].

(** The guard of stage 2: a clip shorter than five seconds ends the run
    before any request to the speech recogniser. *)
Lemma run_pipeline_short_video E url w r w' :
  (forall d c, decode E d = Some c -> Py.lt (clip_duration c) 5 = true) ->
  Api.run_pipeline E url w = (r, w') ->
  exists evs, log w' = log w ++ evs /\ existsb is_transcribe evs = false.
Proof.
  intros Hshort. by_wp.
  wp_run_with ltac:(exfalso;
    match goal with
    | H : decode _ _ = Some _, H' : Py.lt _ _ = false |- _ =>
        apply Hshort in H; congruence
    end).
  all: log_done.
Qed.

(** The guard of stage 3: a transcript of fewer than twenty characters ends
    the run before anything durable is requested or changed. *)
Lemma run_pipeline_short_transcript E url w r w' :
  (forall a t, whisper E a = Some t -> (length t < 20)%nat) ->
  Api.run_pipeline E url w = (r, w') ->
  videos w' = videos w /\
  db_content_library w' = db_content_library w /\
  db_questions w' = db_questions w /\
  exists evs, log w' = log w ++ evs /\ existsb is_durable evs = false.
Proof.
  intros Hshort. by_wp.
  wp_run_with ltac:(exfalso;
    match goal with
    | H : whisper _ _ = Some _, H' : (_ <? _)%nat = false |- _ =>
        apply Hshort in H; apply Nat.ltb_ge in H'; lia
    end).
  all: repeat split; first [ reflexivity | log_done ].
Qed.

(** *** What a run persists *)

Lemma for_each_length {A B} (f : A -> res B) l rows :
  Py.for_each f l = Ok rows -> length rows = length l.
Proof.
  revert rows. induction l as [|x l IH]; intros rows; unfold Py.for_each;
    fold (@Py.for_each A B).
  - by intros [= <-].
  - destruct (f x); [|done]. destruct (Py.for_each f l); [|done].
    intros [= <-]. cbn. f_equal. by apply IH.
Qed.

Lemma for_each_Forall {A B} (f : A -> res B) (P : B -> Prop) l rows :
  (forall x y, x ∈ l -> f x = Ok y -> P y) ->
  Py.for_each f l = Ok rows -> Forall P rows.
Proof.
  revert rows. induction l as [|x l IH]; intros rows HP; unfold Py.for_each;
    fold (@Py.for_each A B).
  - intros [= <-]. constructor.
  - destruct (f x) eqn:Hx; [|done]. destruct (Py.for_each f l); [|done].
    intros [= <-]. constructor.
    + apply (HP x); [left|done].
    + apply IH; [|done]. intros x' y Hin. apply HP. by right.
Qed.

(** The loop of [run_pipeline] over a truthy [questions] ends well only on a
    list (of dicts): the keys of a dict and the characters of a string have
    no [get]. *)
Lemma entries_truthy ai questions new_id qs rows :
  Py.get ai (py "questions") (JArr []) = Ok questions ->
  Py.truthy questions = true ->
  Py.iter questions = Ok qs ->
  Py.for_each (Api.question_insert new_id) qs = Ok rows ->
  entries ai = qs.
Proof.
  intros Hget Ht Hiter Hloop. unfold entries. rewrite Hget.
  destruct questions as [| | |s|l|f]; try done.
  - destruct s; [done|]. by injection Hiter as <-.
  - by injection Hiter as <-.
  - destruct f; [done|]. by injection Hiter as <-.
Qed.

Lemma entries_falsy ai questions :
  Py.get ai (py "questions") (JArr []) = Ok questions ->
  Py.truthy questions = false ->
  entries ai = [].
Proof.
  intros Hget Ht. unfold entries. rewrite Hget.
  by destruct questions as [| | |s|[|]|f].
Qed.

Ltac persisted_nothing :=
  left; split; [reflexivity|]; split; [reflexivity|];
  intros; first [ discriminate | reflexivity ].

Ltac in_log := cbn [In]; repeat first [ left; reflexivity | right ].

Ltac persisted_content :=
  right; do 5 eexists; split; [eassumption|]; split; [in_log|];
  split; [reflexivity|];
  first
    [ split; [reflexivity|]; left;
      erewrite entries_truthy by eassumption; eassumption
    | split; [symmetry; apply app_nil_r|];
      first [ right; split; reflexivity
            | left; erewrite entries_falsy by eassumption; reflexivity ] ].

(** Every run either leaves both tables as they were, or adds one content
    row and the rows built from the entries of the response (none, if the
    database block failed after the content row). *)
Lemma run_pipeline_persists E url w r w' :
  Api.run_pipeline E url w = (r, w') ->
  exists evs, log w' = log w ++ evs /\
    ((db_content_library w' = db_content_library w /\
      db_questions w' = db_questions w /\
      (r = Val tt -> existsb db_error evs = true))
     \/
     exists id row prefix ai rows,
       gpt E ApiPrompt prefix = Parsed ai /\
       In (EvChat ApiPrompt prefix) evs /\
       db_content_library w' = db_content_library w ++ [(id, row)] /\
       db_questions w' = db_questions w ++ rows /\
       (Py.for_each (Api.question_insert id) (entries ai) = Ok rows \/
        rows = [] /\ existsb db_error evs = true)).
Proof.
  by_wp. wp_run.
  all: tidy_log; eexists; (split; [reflexivity|]).
  all: first [ persisted_nothing | persisted_content ].
Qed.

(** ** The upload pipeline, run symbolically *)

(** The loop of [process_video] ends well only on a list of dicts, or on an
    empty dict or string. *)
Lemma entries_items ai questions new_id qs rows :
  Py.item ai (py "questions") = Ok questions ->
  Py.iter questions = Ok qs ->
  Py.for_each (Admin.question_insert new_id) qs = Ok rows ->
  entries ai = qs.
Proof.
  intros Hitem Hiter Hloop. unfold entries.
  destruct ai as [| | | | |f]; try done.
  unfold Py.item in Hitem. unfold Py.get.
  destruct (Py.lookup_key (py "questions") f); [|done].
  injection Hitem as ->. cbn.
  destruct questions as [| | |s|l|f']; try done.
  - by destruct s; injection Hiter as <-.
  - by injection Hiter as <-.
  - by destruct f'; injection Hiter as <-.
Qed.

Ltac uploaded_nothing :=
  left; split; [reflexivity|]; split; [reflexivity|]; discriminate.

Ltac uploaded_content :=
  right; do 5 eexists; split; [eassumption|]; split; [in_log|];
  split; [reflexivity|];
  first
    [ split; [reflexivity|]; left;
      erewrite entries_items by eassumption; eassumption
    | split; [symmetry; apply app_nil_r|]; right; split;
      [reflexivity | discriminate] ].

(** Every run of the form's pipeline either leaves both tables as they were
    and does not reach its end, or adds one content row and the rows built
    from the entries of the response (none, if it stopped after the content
    row). *)
Lemma process_video_persists E file t cat sub w r w' :
  Admin.process_video E file t cat sub w = (r, w') ->
  exists evs, log w' = log w ++ evs /\
    ((db_content_library w' = db_content_library w /\
      db_questions w' = db_questions w /\
      r <> Val tt)
     \/
     exists id row prefix ai rows,
       gpt E AdminPrompt prefix = Parsed ai /\
       In (EvChat AdminPrompt prefix) evs /\
       db_content_library w' = db_content_library w ++ [(id, row)] /\
       db_questions w' = db_questions w ++ rows /\
       (Py.for_each (Admin.question_insert id) (entries ai) = Ok rows \/
        rows = [] /\ r <> Val tt)).
Proof.
  by_wp. wp_run.
  all: tidy_log; eexists; (split; [reflexivity|]).
  all: first [ uploaded_nothing | uploaded_content ].
Qed.

(** ** Both entry points *)

(** The two summaries as one: a run adds nothing to the tables and did not
    succeed, or adds one content row and the rows built from the entries of
    the response it received. *)
Lemma run_persists E s w r w' :
  run E s w = (r, w') ->
  exists evs, log w' = log w ++ evs /\
    ((db_content_library w' = db_content_library w /\
      db_questions w' = db_questions w /\
      ~ succeeded r evs)
     \/
     exists id row prefix ai rows,
       gpt E (prompt_of s) prefix = Parsed ai /\
       In (EvChat (prompt_of s) prefix) evs /\
       db_content_library w' = db_content_library w ++ [(id, row)] /\
       db_questions w' = db_questions w ++ rows /\
       (Py.for_each (question_insert_of s id) (entries ai) = Ok rows \/
        rows = [] /\ ~ succeeded r evs)).
Proof.
  destruct s as [url|file t cat sub]; cbn [run prompt_of question_insert_of];
    intros Hrun.
  - destruct (run_pipeline_persists _ _ _ _ _ Hrun)
      as (evs & Hlog & [(Hc & Hq & Herr)|
          (id & row & prefix & ai & rows & Hgpt & Hin & Hc & Hq & Hrows)]);
      exists evs; (split; [done|]).
    + left. repeat split; [done..|]. intros [Hr Hok]. rewrite Herr in Hok; done.
    + right. exists id, row, prefix, ai, rows. repeat split; [done..|].
      destruct Hrows as [Hrows|[-> Herr]]; [by left|right].
      split; [done|]. intros [_ Hok]. congruence.
  - destruct (process_video_persists _ _ _ _ _ _ _ _ Hrun)
      as (evs & Hlog & [(Hc & Hq & Herr)|
          (id & row & prefix & ai & rows & Hgpt & Hin & Hc & Hq & Hrows)]);
      exists evs; (split; [done|]).
    + left. repeat split; [done..|]. by intros [Hr _].
    + right. exists id, row, prefix, ai, rows. repeat split; [done..|].
      destruct Hrows as [Hrows|[-> Herr]]; [by left|right].
      split; [done|]. by intros [Hr _].
Qed.

(** [q.get(key, default)] on every field: a draft that is a dict always gives
    a row, with 0, 'Error', 'Error' and the empty list where a field is
    missing. *)
Lemma api_question_insert_fills id fields :
  Api.question_insert id (JObj fields) =
  Ok {| video_id := id;
        difficulty_phase :=
          default (JInt 0) (Py.lookup_key (py "stage") fields);
        question_text :=
          default (JStr (py "Error")) (Py.lookup_key (py "q") fields);
        correct_answer :=
          default (JStr (py "Error")) (Py.lookup_key (py "correct") fields);
        wrong_options :=
          default (JArr []) (Py.lookup_key (py "wrong") fields) |}.
Proof. reflexivity. Qed.

(** [item[key]] on every field: at the form a draft gives a row only if it
    is a dict with all four fields. *)
Lemma admin_question_insert_needs_fields id fields row :
  Admin.question_insert id (JObj fields) = Ok row ->
  Py.lookup_key (py "stage") fields = Some (difficulty_phase row) /\
  Py.lookup_key (py "q") fields = Some (question_text row) /\
  Py.lookup_key (py "correct") fields = Some (correct_answer row) /\
  Py.lookup_key (py "wrong") fields = Some (wrong_options row).
Proof.
  unfold Admin.question_insert, Py.item, mbind, res_bind, mret, res_ret.
  destruct (Py.lookup_key (py "stage") fields); [|done].
  destruct (Py.lookup_key (py "q") fields); [|done].
  destruct (Py.lookup_key (py "correct") fields); [|done].
  destruct (Py.lookup_key (py "wrong") fields); [|done].
  by intros [= <-].
Qed.

(** A run that succeeds, through either entry point, has added exactly one
    row to [content_library], and the rows it has added to [questions] are
    those built, one for one and in order, from the question entries of the
    response that it received; so there are as many rows as entries (none
    included). *)
Lemma successful_run_counts E s w r w' evs :
  run E s w = (r, w') ->
  log w' = log w ++ evs ->
  succeeded r evs ->
  exists id row prefix ai rows,
    gpt E (prompt_of s) prefix = Parsed ai /\
    In (EvChat (prompt_of s) prefix) evs /\
    db_content_library w' = db_content_library w ++ [(id, row)] /\
    db_questions w' = db_questions w ++ rows /\
    Py.for_each (question_insert_of s id) (entries ai) = Ok rows /\
    length rows = length (entries ai).
Proof.
  intros Hrun Hlog Hok.
  destruct (run_persists _ _ _ _ _ Hrun)
    as (evs' & Hlog' & [(_ & _ & Hno)|
        (id & row & prefix & ai & rows & Hgpt & Hin & Hc & Hq & Hrows)]).
  all: assert (evs' = evs) as -> by (apply (app_inv_head (log w)); congruence).
  - done.
  - destruct Hrows as [Hrows|[_ Hno]]; [|done].
    exists id, row, prefix, ai, rows. repeat split; try done.
    by eapply for_each_length.
Qed.

(** C6 at the form.  The response holds one draft, which has no [wrong]
    field.  From the URL trigger the run succeeds and the draft becomes a
    row with the empty list in the place of the missing field, one row for
    one draft.  At the form [item['wrong']] raises KeyError after the
    content row is inserted: the run ends in that exception with one content
    row, no question row for the one draft, and its two files left on
    disk. *)
Theorem C6_form_raises_on_missing_field :
  entries missing_wrong = [missing_wrong_draft] /\
  Api.question_insert 1 missing_wrong_draft = Ok missing_wrong_row /\
  wrong_options missing_wrong_row = JArr [] /\
  Admin.question_insert 1 missing_wrong_draft = Err KeyError /\
  succeeded (url_run scenario_missing_wrong).1
            (log (url_run scenario_missing_wrong).2) /\
  length (db_content_library (url_run scenario_missing_wrong).2) = 1%nat /\
  db_questions (url_run scenario_missing_wrong).2 = [missing_wrong_row] /\
  (form_run scenario_missing_wrong).1 = Raised KeyError /\
  ~ succeeded (form_run scenario_missing_wrong).1
              (log (form_run scenario_missing_wrong).2) /\
  length (db_content_library (form_run scenario_missing_wrong).2) = 1%nat /\
  db_questions (form_run scenario_missing_wrong).2 = [] /\
  filter is_durable (log (form_run scenario_missing_wrong).2)
    = [EvUpload (py "Gravity:_an_intro.mp4");
       EvInsertContent
         {| video_url := py "https://store/videos/Gravity:_an_intro.mp4";
            title := JStr (py "Gravity: an intro");
            transcript_text := gravity;
            category := JStr (py "Science");
            sub_category := None;
            duration_seconds := 30 |}] /\
  fs (form_run scenario_missing_wrong).2 !! py "temp_audio.mp3"
    = Some [7; 7]%N.
Proof.
  repeat split; try (vm_compute; reflexivity).
  intros [Hr _]. vm_compute in Hr. discriminate Hr.
Qed.

(** *** Stages and wrong options pass through unchecked *)

Lemma for_each_Forall2 {A B} (f : A -> res B) (R : A -> B -> Prop) l rows :
  (forall x y, f x = Ok y -> R x y) ->
  Py.for_each f l = Ok rows -> Forall2 R l rows.
Proof.
  intros HR. revert rows. induction l as [|x l IH]; intros rows;
    unfold Py.for_each; fold (@Py.for_each A B).
  - intros [= <-]. constructor.
  - destruct (f x) eqn:Hx; [|done]. destruct (Py.for_each f l); [|done].
    intros [= <-]. constructor; [by apply HR | by apply IH].
Qed.

Lemma Forall2_Forall_r {A B} (R : A -> B -> Prop) (P : A -> Prop)
    (Q : B -> Prop) l rows :
  (forall x y, P x -> R x y -> Q y) ->
  Forall2 R l rows -> Forall P l -> Forall Q rows.
Proof.
  intros HPQ. induction 1 as [|x y l ys Hxy _ IH]; [constructor|].
  intros [Hx Hl]%Forall_cons. constructor; [by eapply HPQ | by apply IH].
Qed.

Lemma question_insert_carries s id q row :
  question_insert_of s id q = Ok row -> carries_draft s q row.
Proof.
  destruct s; cbn [question_insert_of]; destruct q as [| | | | |f]; try done.
  - rewrite api_question_insert_fills. intros [= <-]. by exists f.
  - intros Hrow%admin_question_insert_needs_fields. by exists f.
Qed.

Lemma carried_in_range s q row :
  draft_in_range q -> carries_draft s q row -> row_in_range row.
Proof.
  intros Hq (f & -> & Hrow). destruct Hq as [Hstage Hwrong].
  unfold row_in_range. destruct s.
  - destruct Hrow as (-> & _ & _ & ->).
    destruct (Py.lookup_key (py "stage") f), (Py.lookup_key (py "wrong") f);
      cbn; auto.
  - destruct Hrow as (Hs & _ & _ & Hw). rewrite Hs in Hstage. rewrite Hw in Hwrong.
    auto.
Qed.

(** C7, as the code has it.  Neither pipeline checks a stage or counts the
    wrong options: the question rows that a run adds are built, one for one
    and in order, from the drafts of the response it received, and each
    carries the stage and the wrong options of its draft unchanged (0 and
    the empty list, from the URL trigger, where the draft has none), an
    out-of-range one included; a run that succeeds adds such a row for
    every draft.  So the rows have a stage in 0..4 and exactly three wrong
    options (or the fallback) whenever the drafts of the responses do. *)
Theorem C7_rows_carry_their_drafts E s w r w' evs :
  run E s w = (r, w') ->
  log w' = log w ++ evs ->
  exists rows,
    db_questions w' = db_questions w ++ rows /\
    (rows <> [] \/ succeeded r evs ->
     exists prefix ai,
       gpt E (prompt_of s) prefix = Parsed ai /\
       In (EvChat (prompt_of s) prefix) evs /\
       Forall2 (carries_draft s) (entries ai) rows) /\
    ((forall prefix ai,
        gpt E (prompt_of s) prefix = Parsed ai ->
        Forall draft_in_range (entries ai)) ->
     Forall row_in_range rows).
Proof.
  intros Hrun Hlog.
  destruct (run_persists _ _ _ _ _ Hrun)
    as (evs' & Hlog' & [(_ & Hq & Hno)|
        (id & row & prefix & ai & rows & Hgpt & Hin & _ & Hq & Hrows)]).
  all: assert (evs' = evs) as -> by (apply (app_inv_head (log w)); congruence).
  - exists []. split; [by rewrite app_nil_r|]. split; [|constructor].
    intros [?|?]; done.
  - exists rows. split; [done|].
    destruct Hrows as [Hrows|[-> Hno]].
    + assert (Forall2 (carries_draft s) (entries ai) rows) as Hcarry.
      { eapply for_each_Forall2; [|exact Hrows].
        intros q y. apply question_insert_carries. }
      split; [by eauto|]. intros Hdrafts.
      eapply Forall2_Forall_r; [|exact Hcarry|exact (Hdrafts _ _ Hgpt)].
      intros q y. apply carried_in_range.
    + split; [|constructor]. intros [?|?]; done.
Qed.

(** The run of scenario A with a draft of stage 7 and one wrong option. *)
Lemma C7_rows_carry_their_drafts_witness :
  exists rows,
    db_questions (url_run scenario_off_range).2
      = db_questions empty_world ++ rows /\
    (rows <> [] \/
     succeeded (url_run scenario_off_range).1
       (log (url_run scenario_off_range).2) ->
     exists prefix ai,
       gpt scenario_off_range (prompt_of (ByUrl a_url)) prefix = Parsed ai /\
       In (EvChat (prompt_of (ByUrl a_url)) prefix)
          (log (url_run scenario_off_range).2) /\
       Forall2 (carries_draft (ByUrl a_url)) (entries ai) rows) /\
    ((forall prefix ai,
        gpt scenario_off_range (prompt_of (ByUrl a_url)) prefix = Parsed ai ->
        Forall draft_in_range (entries ai)) ->
     Forall row_in_range rows).
Proof.
  apply (C7_rows_carry_their_drafts scenario_off_range (ByUrl a_url)
           empty_world).
  - vm_compute. reflexivity.
  - vm_compute. reflexivity.
Defined.

(** C7 as stated fails: a draft of stage 7 with one wrong option is
    persisted as it came. *)
Lemma C7_out_of_range_draft_is_persisted :
  In off_range_row
     (db_questions (run scenario_off_range (ByUrl a_url) empty_world).2) /\
  stage_in_range (difficulty_phase off_range_row) = false /\
  three_options (wrong_options off_range_row) = false /\
  wrong_options off_range_row <> JArr [].
Proof.
  split; [vm_compute; left; reflexivity|].
  split; [reflexivity|]. split; [reflexivity|]. discriminate.
Qed.

(** ** The order of the stages *)

Lemma is_prefix_elem l order x : is_prefix l order = true -> x ∈ l -> x ∈ order.
Proof.
  revert order. induction l as [|a l IH]; intros order.
  - by intros _ ?%elem_of_nil.
  - destruct order as [|b order]; cbn; [done|].
    intros [Hab Hl]%andb_prop Hx. apply bool_decide_eq_true in Hab as <-.
    apply elem_of_cons in Hx as [->|Hx]; [left|right; by apply IH].
Qed.

Lemma is_prefix_NoDup l order :
  is_prefix l order = true -> NoDup order -> NoDup l.
Proof.
  revert order. induction l as [|a l IH]; intros order.
  - constructor.
  - destruct order as [|b order]; cbn; [done|].
    intros [Hab Hl]%andb_prop [Hb Hnd]%NoDup_cons.
    apply bool_decide_eq_true in Hab as <-.
    constructor; [|by eapply IH].
    intros Ha. apply Hb. by eapply is_prefix_elem.
Qed.

Lemma order_of_NoDup s : NoDup (order_of s).
Proof.
  destruct s; cbn; by apply (bool_decide_unpack _).
Qed.

(** Every run goes through its stages in one fixed order and visits none
    twice: Acquiring, ExtractingAudio, Transcribing, Synthesizing,
    Publishing, Persisting from the URL trigger, and Acquiring,
    ExtractingAudio, Transcribing, Publishing, Synthesizing, Persisting from
    the form, where the upload comes before the synthesis. *)
Lemma stages_in_entry_order E s w :
  exists evs,
    log (run E s w).2 = log w ++ evs /\
    is_prefix (stage_trace evs) (order_of s) = true /\
    NoDup (stage_trace evs).
Proof.
  assert (exists evs, log (run E s w).2 = log w ++ evs /\
            is_prefix (stage_trace evs) (order_of s) = true)
    as (evs & Hlog & Hpre).
  { destruct s as [url|file t cat sub]; cbn [run order_of].
    - by_wp_of (Api.run_pipeline E url) w. wp_run. all: log_done.
    - by_wp_of (Admin.process_video E file t cat sub) w. wp_run.
      all: log_done. }
  exists evs. split; [done|]. split; [done|].
  eapply is_prefix_NoDup; [done|apply order_of_NoDup].
Qed.

(** C4 at the form.  On the input of scenario A the run from the URL trigger
    goes through the six stages in the order of the specification, and the
    run of the form does not: it uploads the video before it asks for the
    questions.  So when the chat model then gives no answer, the form has
    already stored the video, with no row in either table, where the run
    from the URL trigger has stored nothing. *)
Theorem C4_form_uploads_before_synthesis :
  stage_trace (log (url_run scenario_A).2) = linear_order /\
  stage_trace (log (form_run scenario_A).2) = upload_form_order /\
  is_prefix (stage_trace (log (form_run scenario_A).2)) linear_order = false /\
  (url_run scenario_no_reply).1 = Returned /\
  videos (url_run scenario_no_reply).2 !! py "Gravity_an_intro.mp4" = None /\
  filter is_durable (log (url_run scenario_no_reply).2) = [] /\
  (form_run scenario_no_reply).1 = Raised ServiceError /\
  videos (form_run scenario_no_reply).2 !! py "Gravity:_an_intro.mp4"
    = Some [5; 5; 5; 5; 5]%N /\
  filter is_durable (log (form_run scenario_no_reply).2)
    = [EvUpload (py "Gravity:_an_intro.mp4")] /\
  db_content_library (form_run scenario_no_reply).2 = [].
Proof. repeat split; vm_compute; reflexivity. Qed.

(** ** A response without metadata *)

Lemma filename_Video uni : filename uni (JStr (py "Video")) = Ok (py "Video.mp4").
Proof. reflexivity. Qed.

(** A file that was just written is there to be read. *)
Ltac no_missing_file :=
  exfalso;
  match goal with
  | H : _ !! _ = None |- _ =>
      revert H; rewrite !lookup_insert_None; intuition congruence
  end.




(** ** The key and the stored title *)

Lemma filename_Untitled uni :
  filename uni (JStr (py "Untitled")) = Ok (py "Untitled.mp4").
Proof. reflexivity. Qed.

Lemma omits_title_get ai meta d x :
  omits_title ai ->
  Py.get ai (py "metadata") (JObj []) = Ok meta ->
  Py.get meta (py "title") d = Ok x ->
  x = d.
Proof.
  unfold omits_title. intros Hno Hmeta. rewrite Hmeta in Hno.
  destruct meta as [| | | | |f]; try done.
  unfold Py.get. rewrite Hno. by intros [= <-].
Qed.

Ltac title_defaults :=
  repeat match goal with
         | Hg : gpt _ _ _ = Parsed ?v, Hm : Py.get ?v _ _ = Ok ?a,
           Ht : Py.get ?a (py "title") ?d = Ok ?x |- _ =>
             assert (x = d) as -> by (eapply omits_title_get; eauto);
             clear Ht
         end;
  repeat match goal with
         | H : filename _ (JStr (py "Video")) = _ |- _ =>
             rewrite filename_Video in H; first [ injection H as <- | done ]
         end.

(** When the responses carry no title, every upload of a run from the URL
    trigger goes to the key "Video.mp4" and every content row it inserts is
    titled "Untitled", whatever else happens in the run. *)
Lemma title_less_runs_use_Video_and_Untitled E url w r w' :
  (forall prefix ai, gpt E ApiPrompt prefix = Parsed ai -> omits_title ai) ->
  Api.run_pipeline E url w = (r, w') ->
  exists evs,
    log w' = log w ++ evs /\
    Forall (stored_as_Video_titled_Untitled (unicode_alnum E)) evs /\
    (succeeded r evs ->
     In (EvUpload (py "Video.mp4")) evs /\
     exists row, In (EvInsertContent row) evs).
Proof.
  intros Hno. by_wp. wp_run.
  all: title_defaults.
  all: tidy_log; eexists; (split; [reflexivity|]); split.
  all: try (repeat constructor; cbn; rewrite filename_Untitled; discriminate).
  all: intros [Hr Hok];
    first [ discriminate Hr | discriminate Hok
          | split; [in_log | eexists; in_log] ].
Qed.

Lemma get_after_get a k d x k' d' e :
  Py.get a k d = Ok x -> Py.get a k' d' = Err e -> False.
Proof. by destruct a. Qed.

Ltac no_failed_get :=
  exfalso;
  match goal with
  | H1 : Py.get ?a _ _ = Ok _, H2 : Py.get ?a _ _ = Err _ |- _ =>
      exact (get_after_get _ _ _ _ _ _ _ H1 H2)
  end.

(** C10.  In a run from the URL trigger in which every service answers and
    the response decodes to an object whose metadata (a dict, or absent) has
    no [title] key, the run reaches its last statement having stored the
    video under the key "Video.mp4" and inserted one content row titled
    "Untitled": the bucket holds an object at "Video.mp4", the row points at
    it, and the key was not derived from the title of the row, which would
    have given "Untitled.mp4".  Every upload of the run goes to "Video.mp4"
    and every content row it inserts is titled "Untitled". *)
Theorem C10_key_from_Video_title_Untitled E (url : pystr) w vp src data c
    audio heard ai mfields id :
  url <> [] ->
  ydl E url = Some (vp, src, data) ->
  decode E data = Some c ->
  Py.lt (clip_duration c) 5 = false ->
  clip_audio c (replace (py ".mp4") (py ".mp3") vp) = Some audio ->
  whisper E audio = Some heard ->
  (20 <= length heard)%nat ->
  gpt E ApiPrompt (take prompt_limit heard) = Parsed ai ->
  Py.get ai (py "metadata") (JObj []) = Ok (JObj mfields) ->
  Py.lookup_key (py "title") mfields = None ->
  (forall d, storage_accepts E (py "Video.mp4") d = true) ->
  (forall row, content_insert E row = Some id) ->
  exists w' row evs stored,
    Api.run_pipeline E url w = (Val tt, w') /\
    log w' = log w ++ evs /\
    In (EvUpload (py "Video.mp4")) evs /\
    videos w' !! py "Video.mp4" = Some stored /\
    In (EvInsertContent row) evs /\
    db_content_library w' = db_content_library w ++ [(id, row)] /\
    video_url row = public_url_of E (py "Video.mp4") /\
    title row = JStr (py "Untitled") /\
    filename (unicode_alnum E) (title row) = Ok (py "Untitled.mp4") /\
    filename (unicode_alnum E) (title row) <> Ok (py "Video.mp4") /\
    Forall (stored_as_Video_titled_Untitled (unicode_alnum E)) evs.
Proof.
  intros Hurl Hydl Hdec Hlong Haudio Hheard Hlen Hgpt Hmeta Htitle Hacc Hins.
  assert (bool_decide (url = []) = false) as Hnonempty
    by (by apply bool_decide_eq_false_2).
  apply Nat.ltb_ge in Hlen.
  assert (forall d, Py.get (JObj mfields) (py "title") d = Ok d) as Ht
    by (intros d; unfold Py.get; by rewrite Htitle).
  pose proof (Ht JNull) as Hmeta_obj.
  enough ((Api.run_pipeline E url w).1 = Val tt /\
          exists row evs stored,
            log (Api.run_pipeline E url w).2 = log w ++ evs /\
            In (EvUpload (py "Video.mp4")) evs /\
            videos (Api.run_pipeline E url w).2 !! py "Video.mp4"
              = Some stored /\
            In (EvInsertContent row) evs /\
            db_content_library (Api.run_pipeline E url w).2 =
              db_content_library w ++ [(id, row)] /\
            video_url row = public_url_of E (py "Video.mp4") /\
            title row = JStr (py "Untitled") /\
            filename (unicode_alnum E) (title row) = Ok (py "Untitled.mp4") /\
            filename (unicode_alnum E) (title row) <> Ok (py "Video.mp4") /\
            Forall (stored_as_Video_titled_Untitled (unicode_alnum E)) evs)
    as (Hr & row & evs & stored & H).
  { exists (Api.run_pipeline E url w).2, row, evs, stored. split; [|exact H].
    rewrite <- Hr. apply surjective_pairing. }
  by_wp_of (Api.run_pipeline E url) w.
  repeat (wp_step;
          rewrite ?Hnonempty, ?Hydl, ?Hdec, ?Hlong, ?Haudio, ?Hheard, ?Hlen,
            ?Hgpt, ?Hmeta, ?Ht, ?filename_Video, ?Hacc, ?Hins;
          wp_simpl;
          try (solve [no_missing_file | congruence | no_failed_get])).
  all: split; [reflexivity|]; tidy_log; do 3 eexists.
  all: split; [reflexivity|]; split; [in_log|].
  all: split; [apply lookup_insert_eq|]; split; [in_log|].
  all: split; [reflexivity|]; split; [reflexivity|]; split; [reflexivity|].
  all: cbn [title]; rewrite filename_Untitled.
  all: split; [reflexivity|]; split; [discriminate|].
  all: repeat constructor; cbn; rewrite filename_Untitled; discriminate.
Qed.

(** Scenario D through the URL trigger is such a run. *)
Lemma C10_key_from_Video_title_Untitled_witness :
  exists w' row evs stored,
    Api.run_pipeline scenario_D a_url empty_world = (Val tt, w') /\
    log w' = log empty_world ++ evs /\
    In (EvUpload (py "Video.mp4")) evs /\
    videos w' !! py "Video.mp4" = Some stored /\
    In (EvInsertContent row) evs /\
    db_content_library w' = db_content_library empty_world ++ [(1, row)] /\
    video_url row = public_url_of scenario_D (py "Video.mp4") /\
    title row = JStr (py "Untitled") /\
    filename (unicode_alnum scenario_D) (title row) = Ok (py "Untitled.mp4") /\
    filename (unicode_alnum scenario_D) (title row) <> Ok (py "Video.mp4") /\
    Forall (stored_as_Video_titled_Untitled (unicode_alnum scenario_D)) evs.
Proof.
  apply (C10_key_from_Video_title_Untitled scenario_D a_url empty_world
           (py "temp_x1.mp4") (Some (py "Source")) [1; 2; 3]%N
           {| clip_duration := 30; clip_audio := mp3_track [7; 7]%N |}
           [7; 7]%N gravity no_metadata [] 1).
  - vm_compute. discriminate.
  - reflexivity.
  - reflexivity.
  - vm_compute. reflexivity.
  - vm_compute. reflexivity.
  - reflexivity.
  - vm_compute. lia.
  - reflexivity.
  - vm_compute. reflexivity.
  - vm_compute. reflexivity.
  - reflexivity.
  - reflexivity.
Defined.

(** ** The trigger surface *)



(** ** The cleanup at the end *)

(** A run from the URL trigger that reaches its last statement has removed
    the video it downloaded and the audio it extracted. *)
Lemma run_pipeline_end_removes E url w r w' vp src data :
  ydl E url = Some (vp, src, data) ->
  Api.run_pipeline E url w = (r, w') ->
  r = Val tt ->
  fs w' !! vp = None /\
  fs w' !! replace (py ".mp4") (py ".mp3") vp = None.
Proof.
  intros Hydl. by_wp.
  repeat (wp_step; rewrite ?Hydl; wp_simpl; try (solve [no_missing_file])).
  all: intros Hr; try discriminate Hr.
  all: cbn [fs]; rewrite ?lookup_delete_None.
  all: try match goal with
           | H : delete _ _ !! _ = None |- _ => apply lookup_delete_None in H
           end.
  all: split; by auto.
Qed.

(** A run of the form that reaches its last statement has removed its
    temporary video and its audio file. *)
Lemma process_video_end_removes E file t cat sub w r w' :
  Admin.process_video E file t cat sub w = (r, w') ->
  r = Val tt ->
  fs w' !! temp_name E = None /\ fs w' !! py "temp_audio.mp3" = None.
Proof.
  by_wp. wp_run.
  all: intros Hr; try discriminate Hr.
  all: cbn [fs]; rewrite ?lookup_delete_None; split; by auto.
Qed.

(** ** Where the form falls short of the revised pipeline *)

(** C1 at the form.  With a transcript of five characters the run from the
    URL trigger returns with nothing stored, but the run of the form goes
    on: it uploads the video and inserts the content row and five
    questions. *)
Theorem C1_form_persists_after_short_transcript :
  whisper scenario_C [7; 7]%N = Some (py "Hello") /\
  (length (py "Hello") <? 20)%nat = true /\
  (run scenario_C (ByUrl a_url) empty_world).1 = Returned /\
  existsb is_durable (log (run scenario_C (ByUrl a_url) empty_world).2) = false /\
  (run scenario_C a_form empty_world).1 = Val tt /\
  existsb is_durable (log (run scenario_C a_form empty_world).2) = true /\
  videos (run scenario_C a_form empty_world).2 !! py "Gravity:_an_intro.mp4"
    = Some [5; 5; 5; 5; 5]%N /\
  length (db_content_library (run scenario_C a_form empty_world).2) = 1%nat /\
  length (db_questions (run scenario_C a_form empty_world).2) = 5%nat.
Proof. repeat split; vm_compute; reflexivity. Qed.

(** C2 at the form.  With three seconds of video the run from the URL
    trigger returns before any request to the speech recogniser, but the run
    of the form transcribes the audio and goes on to the end. *)
Theorem C2_form_transcribes_short_video :
  clip_duration <$> decode scenario_B [5; 5; 5; 5; 5]%N = Some 3%Q /\
  Py.lt 3 5 = true /\
  (run scenario_B (ByUrl a_url) empty_world).1 = Returned /\
  existsb is_transcribe (log (run scenario_B (ByUrl a_url) empty_world).2)
    = false /\
  existsb is_transcribe (log (run scenario_B a_form empty_world).2) = true /\
  (run scenario_B a_form empty_world).1 = Val tt /\
  length (db_content_library (run scenario_B a_form empty_world).2) = 1%nat.
Proof. repeat split; vm_compute; reflexivity. Qed.

(** C3 at the early exits.  The run from the URL trigger that stops at the
    duration guard leaves the downloaded video behind; the one that stops at
    the transcript guard leaves the video and the audio; the run of the form
    whose video cannot be decoded leaves the temporary video. *)
Theorem C3_early_exits_leave_files :
  (run scenario_B (ByUrl a_url) empty_world).1 = Returned /\
  fs (run scenario_B (ByUrl a_url) empty_world).2 !! py "temp_x1.mp4"
    = Some [1; 2; 3]%N /\
  (run scenario_C (ByUrl a_url) empty_world).1 = Returned /\
  fs (run scenario_C (ByUrl a_url) empty_world).2 !! py "temp_x1.mp4"
    = Some [1; 2; 3]%N /\
  fs (run scenario_C (ByUrl a_url) empty_world).2 !! py "temp_x1.mp3"
    = Some [7; 7]%N /\
  (run scenario_undecodable a_form empty_world).1 = Returned /\
  fs (run scenario_undecodable a_form empty_world).2 !! py "/tmp/tmpab12.mp4"
    = Some [5; 5; 5; 5; 5]%N.
Proof. repeat split; vm_compute; reflexivity. Qed.

(** C8 at the form.  The key of the form keeps the colon of the title, a
    character that is none of alphanumeric, space, hyphen and underscore;
    the key of the URL trigger for the same title drops it. *)
Theorem C8_form_key_keeps_other_characters :
  file_name (py "Gravity: an intro") = py "Gravity:_an_intro.mp4" /\
  In 58%N (file_name (py "Gravity: an intro")) /\
  allowed ascii_only 58 = false /\
  filename ascii_only (JStr (py "Gravity: an intro")) =
    Ok (py "Gravity_an_intro.mp4") /\
  videos (run scenario_A a_form empty_world).2 !! py "Gravity:_an_intro.mp4"
    = Some [5; 5; 5; 5; 5]%N.
Proof.
  split; [reflexivity|]. split; [vm_compute; tauto|].
  repeat split; vm_compute; reflexivity.
Qed.

(** * Further properties of the two programs *)
(** ** Failures of the services, from the URL trigger *)

(** Split a membership in a list that is written out. *)
Ltac in_cases H :=
  cbn [In] in H;
  repeat (destruct H as [H|H]; [try discriminate H|]);
  try (exfalso; exact H).

(** When the download fails the run returns at once: it has asked for the
    download and for nothing else, and files, bucket and tables are as they
    were. *)
Theorem download_failure_stops_the_run E url w r w' :
  ydl E url = None ->
  Api.run_pipeline E url w = (r, w') ->
  r = Returned /\
  fs w' = fs w /\ videos w' = videos w /\
  db_content_library w' = db_content_library w /\
  db_questions w' = db_questions w /\
  exists evs, log w' = log w ++ evs /\
    filter (fun e => is_request e = true) evs
      = match url with [] => [] | _ => [EvDownload url] end.
Proof.
  intros Hydl. by_wp.
  repeat (wp_step; rewrite ?Hydl; wp_simpl).
  - apply bool_decide_eq_true in Heqb as ->.
    repeat split. tidy_log. eexists. split; reflexivity.
  - apply bool_decide_eq_false in Heqb.
    repeat split. tidy_log. eexists. split; [reflexivity|].
    destruct url; [done|reflexivity].
Qed.

Ltac nothing_persisted :=
  repeat (split; [reflexivity|]); tidy_log; eexists;
  split; [reflexivity|]; split; [reflexivity|]; discriminate.

(** A response that is not a JSON object (no answer, no JSON, or JSON of
    another kind) never gets a run to the upload: nothing is stored or
    inserted, and the run does not reach its end. *)
Theorem response_not_an_object_persists_nothing E url w r w' :
  (forall prefix, not_an_object (gpt E ApiPrompt prefix)) ->
  Api.run_pipeline E url w = (r, w') ->
  videos w' = videos w /\
  db_content_library w' = db_content_library w /\
  db_questions w' = db_questions w /\
  exists evs, log w' = log w ++ evs /\
    existsb is_durable evs = false /\ r <> Val tt.
Proof.
  intros Hnot. by_wp.
  wp_run_with ltac:(exfalso;
    match goal with
    | Hg : gpt _ _ ?p = Parsed ?v, Hm : Py.get ?v _ _ = Ok _ |- _ =>
        specialize (Hnot p); rewrite Hg in Hnot; destruct v; done
    end).
  all: nothing_persisted.
Qed.

(** A response whose metadata is not an object (null, a string, a list)
    passes the parse, and the run then fails on [meta.get] outside every
    handler: nothing is stored or inserted, and the run does not reach its
    end. *)
Theorem metadata_not_an_object_persists_nothing E url w r w' :
  (forall prefix ai,
     gpt E ApiPrompt prefix = Parsed ai -> metadata_not_an_object ai) ->
  Api.run_pipeline E url w = (r, w') ->
  videos w' = videos w /\
  db_content_library w' = db_content_library w /\
  db_questions w' = db_questions w /\
  exists evs, log w' = log w ++ evs /\
    existsb is_durable evs = false /\ r <> Val tt.
Proof.
  intros Hnot. by_wp.
  wp_run_with ltac:(exfalso;
    match goal with
    | Hg : gpt _ _ _ = Parsed ?v, Hm : Py.get ?v (py "metadata") _ = Ok ?a,
      Ht : Py.get ?a (py "title") _ = Ok _ |- _ =>
        specialize (Hnot _ _ Hg); unfold metadata_not_an_object in Hnot;
        rewrite Hm in Hnot; destruct a; done
    end).
  all: nothing_persisted.
Qed.

(** When the object store refuses the upload, the run from the URL trigger
    inserts nothing and does not reach its end. *)
Theorem upload_failure_persists_nothing E url w r w' :
  (forall key data, storage_accepts E key data = false) ->
  Api.run_pipeline E url w = (r, w') ->
  videos w' = videos w /\
  db_content_library w' = db_content_library w /\
  db_questions w' = db_questions w /\
  exists evs, log w' = log w ++ evs /\
    existsb (fun e => match e with
                      | EvInsertContent _ | EvInsertQuestions _ => true
                      | _ => false
                      end) evs = false /\
    r <> Val tt.
Proof.
  intros Hdown. by_wp.
  wp_run_with ltac:(exfalso;
    match goal with
    | H : storage_accepts _ _ _ = true |- _ => rewrite Hdown in H; done
    end).
  all: nothing_persisted.
Qed.

(** ** What the rows of a run carry *)

(** Once the upload has succeeded, nothing stops a run from the URL
    trigger: whatever the database answers, the run goes on through the
    cleanup to its last statement. *)
Theorem run_pipeline_completes_after_upload E url w r w' evs :
  Api.run_pipeline E url w = (r, w') ->
  log w' = log w ++ evs ->
  In (Say MsgSaving) evs ->
  r = Val tt /\ In (Say MsgPipelineComplete) evs.
Proof.
  intros Hrun; revert evs; revert Hrun. by_wp.
  wp_run_with ltac:(no_failed_get).
  all: tidy_log; intros evs Hlog%app_inv_head; subst evs; intros Hin.
  all: first [ split; [reflexivity | in_log] | solve [in_cases Hin] ].
Qed.

Lemma prompt_limit_is : prompt_limit = Z.to_nat 15000.
Proof. Transparent prompt_limit. reflexivity. Opaque prompt_limit. Qed.

(** The chat model is sent the first 15000 characters of what the speech
    recogniser returned, through either entry point and with the prompt of
    that entry point. *)
Theorem chat_request_is_transcript_prefix E s w r w' evs p prefix :
  run E s w = (r, w') ->
  log w' = log w ++ evs ->
  In (EvChat p prefix) evs ->
  p = prompt_of s /\
  (length prefix <= Z.to_nat 15000)%nat /\
  exists audio transcript,
    whisper E audio = Some transcript /\
    prefix = take (Z.to_nat 15000) transcript.
Proof.
  intros Hrun; revert evs; revert Hrun.
  destruct s as [url|file t cat sub]; cbn [run prompt_of]; by_wp; wp_run.
  all: tidy_log; intros evs Hlog%app_inv_head; subst evs; intros Hin.
  all: in_cases Hin.
  all: injection Hin as <- <-; rewrite prompt_limit_is.
  all: split; [reflexivity|]; split; [rewrite length_take; lia|]; eauto.
Qed.

Lemma int_at_least_5 d : Py.lt d 5 = false -> 5 <= Py.int d.
Proof.
  unfold Py.lt, Py.int. intros Hd%negb_false_iff%Qle_bool_iff.
  unfold Qle in Hd. cbn in Hd.
  apply Z.quot_le_lower_bound; lia.
Qed.

(** Every content row that a run from the URL trigger inserts passed both
    guards: its transcript has at least 20 characters and its duration is at
    least 5 seconds. *)
Theorem url_rows_passed_the_guards E url w r w' evs row :
  Api.run_pipeline E url w = (r, w') ->
  log w' = log w ++ evs ->
  In (EvInsertContent row) evs ->
  (20 <= length (transcript_text row))%nat /\ 5 <= duration_seconds row.
Proof.
  intros Hrun; revert evs; revert Hrun. by_wp. wp_run.
  all: tidy_log; intros evs Hlog%app_inv_head; subst evs; intros Hin.
  all: in_cases Hin.
  all: injection Hin as <-; cbn [transcript_text duration_seconds].
  all: split; [by apply Nat.ltb_ge | by apply int_at_least_5].
Qed.

(** A content row is inserted only for a video that is in the bucket: the
    run has uploaded it, the row points at the public address of its key,
    and the object is there when the run ends.  Through either entry
    point. *)
Theorem content_row_points_at_stored_video E s w r w' evs row :
  run E s w = (r, w') ->
  log w' = log w ++ evs ->
  In (EvInsertContent row) evs ->
  exists key data,
    In (EvUpload key) evs /\
    video_url row = public_url_of E key /\
    videos w' !! key = Some data.
Proof.
  intros Hrun; revert evs; revert Hrun.
  destruct s as [url|file t cat sub]; cbn [run]; by_wp; wp_run.
  all: tidy_log; intros evs Hlog%app_inv_head; subst evs; intros Hin.
  all: in_cases Hin.
  all: injection Hin as <-; do 2 eexists.
  all: split; [in_log|]; split; [reflexivity|].
  all: cbn [videos]; apply lookup_insert_eq.
Qed.

Lemma question_insert_video_id s id q row :
  question_insert_of s id q = Ok row -> video_id row = id.
Proof.
  destruct s; cbn [question_insert_of].
  - destruct q as [| | | | |f]; try done. rewrite api_question_insert_fills.
    by intros [= <-].
  - destruct q as [| | | | |f]; try done.
    unfold Admin.question_insert, Py.item, mbind, res_bind, mret, res_ret.
    destruct (Py.lookup_key (py "stage") f); [|done].
    destruct (Py.lookup_key (py "q") f); [|done].
    destruct (Py.lookup_key (py "correct") f); [|done].
    destruct (Py.lookup_key (py "wrong") f); [|done].
    by intros [= <-].
Qed.

(** Question rows are never added on their own: a run that adds any adds
    them after exactly one content row of its own, and each of them carries
    the id that the store assigned to that row.  Through either entry
    point. *)
Theorem questions_reference_their_content_row E s w r w' :
  run E s w = (r, w') ->
  db_questions w' = db_questions w \/
  exists id row rows,
    content_insert E row = Some id /\
    db_content_library w' = db_content_library w ++ [(id, row)] /\
    db_questions w' = db_questions w ++ rows /\
    Forall (fun q => video_id q = id) rows.
Proof.
  destruct s as [url|file t cat sub]; cbn [run]; by_wp; wp_run.
  all: cbn [db_questions db_content_library].
  all: first
    [ left; reflexivity
    | right; do 3 eexists; split; [eassumption|];
      split; [reflexivity|]; split; [reflexivity|];
      eapply for_each_Forall; [|eassumption];
      intros q y _ Hy;
      first [ exact (question_insert_video_id (ByUrl []) _ _ _ Hy)
            | exact (question_insert_video_id (ByUpload [] [] [] []) _ _ _ Hy) ] ].
Qed.

(** The content row of the form carries what the operator typed: the title
    as it is, the category joined with the sub-category by " > " (alone, if
    there is no sub-category), no [sub_category] column, and the public
    address of the key made from the title. *)
Theorem form_row_is_the_operators E file t cat sub w r w' evs row :
  Admin.process_video E file t cat sub w = (r, w') ->
  log w' = log w ++ evs ->
  In (EvInsertContent row) evs ->
  title row = JStr t /\
  category row = JStr (full_category cat sub) /\
  sub_category row = None /\
  video_url row = public_url_of E (file_name t).
Proof.
  intros Hrun; revert evs; revert Hrun. by_wp. wp_run.
  all: tidy_log; intros evs Hlog%app_inv_head; subst evs; intros Hin.
  all: in_cases Hin.
  all: injection Hin as <-; repeat split.
  all: cbn [category]; f_equal; unfold full_category.
  all: destruct sub; [by rewrite bool_decide_eq_true_2
                     | by rewrite bool_decide_eq_false_2].
Qed.

(** At the form a chat model that gives no usable answer leaves an orphan:
    the run ends in an exception with the video already in the bucket, no
    row in either table, and the temporary video still on disk. *)
Theorem form_orphans_upload_without_response
    E file t cat sub w r w' evs p prefix :
  (forall prefix, no_response (gpt E AdminPrompt prefix)) ->
  Admin.process_video E file t cat sub w = (r, w') ->
  log w' = log w ++ evs ->
  In (EvChat p prefix) evs ->
  (exists e, r = Raised e) /\
  (exists data, videos w' !! file_name t = Some data) /\
  db_content_library w' = db_content_library w /\
  db_questions w' = db_questions w /\
  is_Some (fs w' !! temp_name E).
Proof.
  intros Hnone Hrun; revert evs; revert Hrun. by_wp.
  wp_run_with ltac:(exfalso;
    match goal with
    | Hg : gpt _ _ ?q = Parsed _ |- _ =>
        specialize (Hnone q); by rewrite Hg in Hnone
    end).
  all: tidy_log; intros evs Hlog%app_inv_head; subst evs; intros Hin.
  all: in_cases Hin.
  all: split; [by eexists|]; split; [eexists; apply lookup_insert_eq|].
  all: split; [reflexivity|]; split; [reflexivity|]; cbn [fs].
  all: apply lookup_insert_is_Some'; right; rewrite lookup_insert_eq; eauto.
Qed.

(** ** The names of the files *)

(** When the downloaded file is not named .mp4, the audio path that
    [run_pipeline] computes is the video path itself. *)
Lemma replace_absent old new s :
  contains s old = false -> replace old new s = s.
Proof.
  unfold replace. induction s as [|c s IH]; [done|].
  cbn [contains replace_from]. intros [Hhere Hlater]%orb_false_elim.
  rewrite Hhere. f_equal. by apply IH.
Qed.

Lemma title_is_string_get ai meta d x :
  title_is_string ai ->
  Py.get ai (py "metadata") (JObj []) = Ok meta ->
  Py.get meta (py "title") (JStr d) = Ok x ->
  exists s, x = JStr s.
Proof.
  unfold title_is_string. intros Hstr Hmeta. rewrite Hmeta in Hstr.
  destruct meta as [| | | | |f]; try done.
  unfold Py.get. destruct (Py.lookup_key (py "title") f) as [[]|];
    intros [= <-]; try done; eauto.
Qed.

(** When the titles of the responses are strings (or missing), every key
    under which a run from the URL trigger uploads is the key of section 4.5
    for some title: alphanumeric characters, hyphens and underscores, with
    no space, followed by ".mp4". *)
Theorem url_keys_are_safe E url w r w' evs key :
  (forall prefix ai,
     gpt E ApiPrompt prefix = Parsed ai -> title_is_string ai) ->
  Api.run_pipeline E url w = (r, w') ->
  log w' = log w ++ evs ->
  In (EvUpload key) evs ->
  exists s,
    key = spec_key (unicode_alnum E) s /\
    forall ch, ch ∈ sanitized (unicode_alnum E) s ->
      (isalnum_cp (unicode_alnum E) ch = true \/ ch = 45%N \/ ch = 95%N).
Proof.
  intros Hstr Hrun; revert evs; revert Hrun. by_wp. wp_run.
  all: tidy_log; intros evs Hlog%app_inv_head; subst evs; intros Hin.
  all: in_cases Hin.
  all: injection Hin as <-.
  all: match goal with
       | Hg : gpt _ _ _ = Parsed ?v, Hm : Py.get ?v _ _ = Ok ?a,
         Ht : Py.get ?a (py "title") (JStr _) = Ok ?x,
         Hf : filename _ ?x = Ok _ |- _ =>
           destruct (title_is_string_get _ _ _ _ (Hstr _ _ Hg) Hm Ht)
             as [s' ->];
           rewrite filename_spec in Hf; injection Hf as <-
       end.
  all: eexists; split; [reflexivity|].
  all: intros ch [Hc Hns]%sanitized_chars; unfold allowed in Hc.
  all: apply orb_prop in Hc as [Hc|Hc%N.eqb_eq]; [|by auto].
  all: apply orb_prop in Hc as [Hc|Hc%N.eqb_eq]; [|by auto].
  all: apply orb_prop in Hc as [Hc|Hc%N.eqb_eq]; [by auto|done].
Qed.


Lemma bind_ext {A B} (m : M A) (f g : A -> M B) w :
  (forall a w', f a w' = g a w') -> (m ≫= f) w = (m ≫= g) w.
Proof.
  intros Hfg. unfold mbind, M_bind. destruct (m w) as [[a| |e] w']; auto.
Qed.

Lemma download_then E E' url (k k' : pystr -> M unit) handler w :
  (forall u, ydl E' u =
     match ydl E u with
     | Some (path, _, data) => Some (path, None, data)
     | None => None
     end) ->
  (forall path w', k' path w' = k path w') ->
  (try_except (Api.download_video E' url) handler
     ≫= (fun '(video_path, _) => k' video_path)) w =
  (try_except (Api.download_video E url) handler
     ≫= (fun '(video_path, _) => k video_path)) w.
Proof.
  intros Hydl Hk.
  cbv [mbind M_bind try_except Api.download_video say emit write_file raise
       mret M_ret].
  rewrite Hydl.
  destruct (ydl E url) as [[[path t] data]|]; cbn; [apply Hk|].
  match goal with
  | |- context [handler ServiceError ?x] =>
      destruct (handler ServiceError x) as [[[path t]| |e] w3]; cbn; auto
  end.
Qed.

(** The title that the downloader reports for the source is not used: with
    a downloader that reports no title the run is the same. *)
Theorem source_title_is_ignored E url w :
  Api.run_pipeline (without_source_titles E) url w = Api.run_pipeline E url w.
Proof.
  unfold Api.run_pipeline.
  destruct (bool_decide (url = [])); [reflexivity|].
  apply bind_ext. intros _ w1.
  apply (download_then E); [reflexivity|].
  intros path w2. reflexivity.
Qed.

(** ** The login gate *)

(** The callback accepts a typed password only if the secret is that very
    string.  It then raises the flag, deletes the typed password from the
    session and leaves every other key alone; otherwise it shows the error
    and leaves the session as it was. *)
Theorem check_password_accepts_only_the_secret
    (secrets : gmap pystr json) (session_state : gmap pystr Login.value)
    typed after notices :
  session_state !! py "password_input" = Some (Login.VStr typed) ->
  Login.check_password secrets session_state = Ok (after, notices) ->
  (secrets !! py "ADMIN_PASSWORD" = Some (JStr typed) /\
   notices = [] /\
   after !! py "authenticated" = Some (Login.VBool true) /\
   after !! py "password_input" = None /\
   forall k, k <> py "authenticated" -> k <> py "password_input" ->
             after !! k = session_state !! k)
  \/
  (secrets !! py "ADMIN_PASSWORD" <> Some (JStr typed) /\
   notices = [Login.IncorrectPassword] /\
   after = session_state).
Proof.
  intros Htyped. unfold Login.check_password. rewrite Htyped.
  destruct (secrets !! py "ADMIN_PASSWORD") as [secret|]; [|done].
  destruct (Login.eq (Login.VStr typed) secret) eqn:Heq; intros [= <- <-].
  - left. destruct secret; try done. cbn in Heq.
    apply bool_decide_eq_true in Heq as <-.
    split; [done|]. split; [done|]. split.
    { rewrite lookup_delete_ne by done. apply lookup_insert_eq. }
    split; [apply lookup_delete_eq|].
    intros k Ha Hp. rewrite lookup_delete_ne by done.
    by rewrite lookup_insert_ne.
  - right. split; [|done]. intros [= ->]. cbn in Heq.
    by rewrite bool_decide_eq_true_2 in Heq.
Qed.

(** The callback raises [KeyError], and changes nothing, exactly when the
    session holds no typed password or the secrets hold no
    ADMIN_PASSWORD. *)
Theorem check_password_missing_key (secrets : gmap pystr json)
    (session_state : gmap pystr Login.value) :
  (exists e, Login.check_password secrets session_state = Err e) <->
  session_state !! py "password_input" = None \/
  secrets !! py "ADMIN_PASSWORD" = None.
Proof.
  unfold Login.check_password.
  destruct (session_state !! py "password_input") as [typed|];
    [|split; eauto].
  destruct (secrets !! py "ADMIN_PASSWORD") as [secret|]; [|split; eauto].
  split; [|by intros [|]].
  by destruct (Login.eq typed secret); intros [e ?].
Qed.

(** The script goes past the gate after an accepted password, whatever the
    session held before; after a refused one the gate is as it was. *)
Theorem gate_opens_after_login
    (secrets : gmap pystr json) (session_state : gmap pystr Login.value)
    after notices :
  Login.check_password secrets session_state = Ok (after, notices) ->
  Login.gate after =
    match notices with
    | [] => (after, true)
    | _ => Login.gate session_state
    end.
Proof.
  unfold Login.check_password. intros Hcheck.
  destruct (session_state !! py "password_input"); [|done].
  destruct (secrets !! py "ADMIN_PASSWORD"); [|done].
  destruct (Login.eq _ _); injection Hcheck as <- <-; [|done].
  assert (delete (py "password_input")
            (<[py "authenticated" := Login.VBool true]> session_state)
            !! py "authenticated" = Some (Login.VBool true)) as Hflag
    by (rewrite lookup_delete_ne by done; apply lookup_insert_eq).
  unfold Login.gate, Login.init. rewrite Hflag. cbn. by rewrite Hflag.
Qed.

(** A session that has no flag yet is stopped at the gate, and leaves it
    with the flag down. *)
Lemma gate_stops_new_session (session_state : gmap pystr Login.value) :
  session_state !! py "authenticated" = None ->
  Login.gate session_state =
    (<[py "authenticated" := Login.VBool false]> session_state, false).
Proof.
  intros Hnone. unfold Login.gate, Login.init. rewrite Hnone.
  by rewrite lookup_insert_eq.
Qed.

(** ** What a run leaves alone *)

(** A run writes at most one object to the bucket, and only one that the
    store accepted; under a key that is taken it replaces the object.
    Through either entry point. *)
Theorem run_writes_at_most_one_object E s w r w' :
  run E s w = (r, w') ->
  videos w' = videos w \/
  exists key data,
    storage_accepts E key data = true /\
    videos w' = <[key := data]> (videos w).
Proof.
  destruct s as [url|file t cat sub]; cbn [run]; by_wp; wp_run.
  all: cbn [videos].
  all: first [ left; reflexivity
             | right; do 2 eexists; split; [eassumption | reflexivity] ].
Qed.

(** A run from the URL trigger touches no local file but the video it
    downloaded and the audio beside it. *)
Theorem run_pipeline_touches_only_its_files E url w r w' vp src data path :
  ydl E url = Some (vp, src, data) ->
  Api.run_pipeline E url w = (r, w') ->
  path <> vp ->
  path <> replace (py ".mp4") (py ".mp3") vp ->
  fs w' !! path = fs w !! path.
Proof.
  intros Hydl. by_wp.
  repeat (wp_step; rewrite ?Hydl; wp_simpl).
  all: intros Hvp Hap; cbn [fs].
  all: by rewrite ?lookup_delete_ne, ?lookup_insert_ne by done.
Qed.

(** A run of the form touches no local file but its temporary video and
    temp_audio.mp3, the one audio file that all its runs share. *)
Theorem process_video_touches_only_its_files
    E file t cat sub w r w' path :
  Admin.process_video E file t cat sub w = (r, w') ->
  path <> temp_name E ->
  path <> py "temp_audio.mp3" ->
  fs w' !! path = fs w !! path.
Proof.
  by_wp. wp_run.
  all: intros Hvp Hap; cbn [fs].
  all: by rewrite ?lookup_delete_ne, ?lookup_insert_ne by done.
Qed.

(** ** The properties on the scenarios *)

Ltac by_run := vm_compute; reflexivity.
Ltac in_run := vm_compute; repeat first [ left; reflexivity | right ].

Lemma run_pipeline_short_video_witness :
  exists evs,
    log (url_run scenario_B).2 = log empty_world ++ evs /\
    existsb is_transcribe evs = false.
Proof.
  apply (run_pipeline_short_video scenario_B a_url empty_world
           (url_run scenario_B).1 (url_run scenario_B).2).
  - intros d c [= <-]. reflexivity.
  - by_run.
Defined.

Lemma run_pipeline_short_transcript_witness :
  videos (url_run scenario_C).2 = videos empty_world /\
  db_content_library (url_run scenario_C).2 = db_content_library empty_world /\
  db_questions (url_run scenario_C).2 = db_questions empty_world /\
  exists evs,
    log (url_run scenario_C).2 = log empty_world ++ evs /\
    existsb is_durable evs = false.
Proof.
  apply (run_pipeline_short_transcript scenario_C a_url empty_world
           (url_run scenario_C).1 (url_run scenario_C).2).
  - intros a t [= <-]. vm_compute. lia.
  - by_run.
Defined.

Lemma download_failure_stops_the_run_witness :
  (url_run scenario_no_download).1 = Returned /\
  fs (url_run scenario_no_download).2 = fs empty_world /\
  videos (url_run scenario_no_download).2 = videos empty_world /\
  db_content_library (url_run scenario_no_download).2
    = db_content_library empty_world /\
  db_questions (url_run scenario_no_download).2 = db_questions empty_world /\
  exists evs,
    log (url_run scenario_no_download).2 = log empty_world ++ evs /\
    filter (fun e => is_request e = true) evs
      = match a_url with [] => [] | _ => [EvDownload a_url] end.
Proof.
  apply (download_failure_stops_the_run scenario_no_download a_url empty_world
           (url_run scenario_no_download).1 (url_run scenario_no_download).2).
  - reflexivity.
  - by_run.
Defined.

Lemma response_not_an_object_persists_nothing_witness :
  videos (url_run scenario_array).2 = videos empty_world /\
  db_content_library (url_run scenario_array).2
    = db_content_library empty_world /\
  db_questions (url_run scenario_array).2 = db_questions empty_world /\
  exists evs,
    log (url_run scenario_array).2 = log empty_world ++ evs /\
    existsb is_durable evs = false /\
    (url_run scenario_array).1 <> Val tt.
Proof.
  apply (response_not_an_object_persists_nothing scenario_array a_url
           empty_world (url_run scenario_array).1 (url_run scenario_array).2).
  - intros prefix. exact I.
  - by_run.
Defined.

Lemma metadata_not_an_object_persists_nothing_witness :
  videos (url_run scenario_null_metadata).2 = videos empty_world /\
  db_content_library (url_run scenario_null_metadata).2
    = db_content_library empty_world /\
  db_questions (url_run scenario_null_metadata).2
    = db_questions empty_world /\
  exists evs,
    log (url_run scenario_null_metadata).2 = log empty_world ++ evs /\
    existsb is_durable evs = false /\
    (url_run scenario_null_metadata).1 <> Val tt.
Proof.
  apply (metadata_not_an_object_persists_nothing scenario_null_metadata a_url
           empty_world (url_run scenario_null_metadata).1
           (url_run scenario_null_metadata).2).
  - intros prefix ai [= <-]. exact I.
  - by_run.
Defined.

Lemma upload_failure_persists_nothing_witness :
  videos (url_run scenario_storage_down).2 = videos empty_world /\
  db_content_library (url_run scenario_storage_down).2
    = db_content_library empty_world /\
  db_questions (url_run scenario_storage_down).2
    = db_questions empty_world /\
  exists evs,
    log (url_run scenario_storage_down).2 = log empty_world ++ evs /\
    existsb (fun e => match e with
                      | EvInsertContent _ | EvInsertQuestions _ => true
                      | _ => false
                      end) evs = false /\
    (url_run scenario_storage_down).1 <> Val tt.
Proof.
  apply (upload_failure_persists_nothing scenario_storage_down a_url
           empty_world (url_run scenario_storage_down).1
           (url_run scenario_storage_down).2).
  - intros key data. reflexivity.
  - by_run.
Defined.

Lemma run_pipeline_completes_after_upload_witness :
  (url_run scenario_questions_down).1 = Val tt /\
  In (Say MsgPipelineComplete) (log (url_run scenario_questions_down).2).
Proof.
  apply (run_pipeline_completes_after_upload scenario_questions_down a_url
           empty_world (url_run scenario_questions_down).1
           (url_run scenario_questions_down).2).
  - by_run.
  - by_run.
  - in_run.
Defined.

Lemma run_pipeline_end_removes_witness :
  fs (url_run scenario_A).2 !! py "temp_x1.mp4" = None /\
  fs (url_run scenario_A).2
    !! replace (py ".mp4") (py ".mp3") (py "temp_x1.mp4") = None.
Proof.
  apply (run_pipeline_end_removes scenario_A a_url empty_world
           (url_run scenario_A).1 (url_run scenario_A).2
           (py "temp_x1.mp4") (Some (py "Source")) [1; 2; 3]%N).
  - reflexivity.
  - by_run.
  - by_run.
Defined.

Lemma process_video_end_removes_witness :
  fs (form_run scenario_A).2 !! temp_name scenario_A = None /\
  fs (form_run scenario_A).2 !! py "temp_audio.mp3" = None.
Proof.
  apply (process_video_end_removes scenario_A [5; 5; 5; 5; 5]%N
           (py "Gravity: an intro") (py "Science") [] empty_world
           (form_run scenario_A).1 (form_run scenario_A).2).
  - by_run.
  - by_run.
Defined.

Lemma chat_request_is_transcript_prefix_witness :
  ApiPrompt = prompt_of (ByUrl a_url) /\
  (length gravity <= Z.to_nat 15000)%nat /\
  exists audio transcript,
    whisper scenario_A audio = Some transcript /\
    gravity = take (Z.to_nat 15000) transcript.
Proof.
  apply (chat_request_is_transcript_prefix scenario_A (ByUrl a_url)
           empty_world (url_run scenario_A).1 (url_run scenario_A).2
           (log (url_run scenario_A).2)).
  - by_run.
  - by_run.
  - in_run.
Defined.

Lemma url_rows_passed_the_guards_witness :
  (20 <= length (transcript_text row_A))%nat /\ 5 <= duration_seconds row_A.
Proof.
  apply (url_rows_passed_the_guards scenario_A a_url empty_world
           (url_run scenario_A).1 (url_run scenario_A).2
           (log (url_run scenario_A).2)).
  - by_run.
  - by_run.
  - in_run.
Defined.

Lemma content_row_points_at_stored_video_witness :
  exists key data,
    In (EvUpload key) (log (form_run scenario_A).2) /\
    video_url row_A_form = public_url_of scenario_A key /\
    videos (form_run scenario_A).2 !! key = Some data.
Proof.
  apply (content_row_points_at_stored_video scenario_A a_form empty_world
           (form_run scenario_A).1).
  - by_run.
  - by_run.
  - in_run.
Defined.

Lemma questions_reference_their_content_row_witness :
  db_questions (url_run scenario_A).2 = db_questions empty_world \/
  exists id row rows,
    content_insert scenario_A row = Some id /\
    db_content_library (url_run scenario_A).2
      = db_content_library empty_world ++ [(id, row)] /\
    db_questions (url_run scenario_A).2 = db_questions empty_world ++ rows /\
    Forall (fun q => video_id q = id) rows.
Proof.
  apply (questions_reference_their_content_row scenario_A (ByUrl a_url)
           empty_world (url_run scenario_A).1).
  by_run.
Defined.

Lemma form_row_is_the_operators_witness :
  title row_A_form = JStr (py "Gravity: an intro") /\
  category row_A_form = JStr (full_category (py "Science") []) /\
  sub_category row_A_form = None /\
  video_url row_A_form =
    public_url_of scenario_A (file_name (py "Gravity: an intro")).
Proof.
  apply (form_row_is_the_operators scenario_A [5; 5; 5; 5; 5]%N
           (py "Gravity: an intro") (py "Science") [] empty_world
           (form_run scenario_A).1 (form_run scenario_A).2
           (log (form_run scenario_A).2)).
  - by_run.
  - by_run.
  - in_run.
Defined.

Lemma form_orphans_upload_without_response_witness :
  (exists e, (form_run scenario_no_reply).1 = Raised e) /\
  (exists data,
      videos (form_run scenario_no_reply).2
        !! file_name (py "Gravity: an intro") = Some data) /\
  db_content_library (form_run scenario_no_reply).2
    = db_content_library empty_world /\
  db_questions (form_run scenario_no_reply).2 = db_questions empty_world /\
  is_Some (fs (form_run scenario_no_reply).2 !! temp_name scenario_no_reply).
Proof.
  apply (form_orphans_upload_without_response scenario_no_reply
           [5; 5; 5; 5; 5]%N (py "Gravity: an intro") (py "Science") []
           empty_world (form_run scenario_no_reply).1
           (form_run scenario_no_reply).2 (log (form_run scenario_no_reply).2)
           AdminPrompt gravity).
  - intros prefix. exact I.
  - by_run.
  - by_run.
  - in_run.
Defined.

Lemma url_keys_are_safe_witness :
  exists s,
    py "Gravity_an_intro.mp4" = spec_key (unicode_alnum scenario_A) s /\
    forall ch, ch ∈ sanitized (unicode_alnum scenario_A) s ->
      (isalnum_cp (unicode_alnum scenario_A) ch = true
       \/ ch = 45%N \/ ch = 95%N).
Proof.
  apply (url_keys_are_safe scenario_A a_url empty_world
           (url_run scenario_A).1 (url_run scenario_A).2
           (log (url_run scenario_A).2)).
  - intros prefix ai [= <-]. exact I.
  - by_run.
  - by_run.
  - in_run.
Defined.

Lemma run_writes_at_most_one_object_witness :
  videos (form_run scenario_A).2 = videos empty_world \/
  exists key data,
    storage_accepts scenario_A key data = true /\
    videos (form_run scenario_A).2 = <[key := data]> (videos empty_world).
Proof.
  apply (run_writes_at_most_one_object scenario_A a_form empty_world
           (form_run scenario_A).1).
  by_run.
Defined.

Lemma run_pipeline_touches_only_its_files_witness :
  fs (url_run scenario_C).2 !! py "notes.txt" = fs empty_world !! py "notes.txt".
Proof.
  apply (run_pipeline_touches_only_its_files scenario_C a_url empty_world
           (url_run scenario_C).1 (url_run scenario_C).2
           (py "temp_x1.mp4") (Some (py "Source")) [1; 2; 3]%N).
  - reflexivity.
  - by_run.
  - vm_compute. discriminate.
  - vm_compute. discriminate.
Defined.

Lemma process_video_touches_only_its_files_witness :
  fs (form_run scenario_undecodable).2 !! py "notes.txt"
    = fs empty_world !! py "notes.txt".
Proof.
  apply (process_video_touches_only_its_files scenario_undecodable
           [5; 5; 5; 5; 5]%N (py "Gravity: an intro") (py "Science") []
           empty_world (form_run scenario_undecodable).1
           (form_run scenario_undecodable).2).
  - by_run.
  - vm_compute. discriminate.
  - vm_compute. discriminate.
Defined.

Lemma check_password_accepts_only_the_secret_witness :
  (a_secrets !! py "ADMIN_PASSWORD" = Some (JStr (py "s3cret")) /\
   @nil Login.notice = [] /\
   delete (py "password_input")
     (<[py "authenticated" := Login.VBool true]> a_session)
     !! py "authenticated" = Some (Login.VBool true) /\
   delete (py "password_input")
     (<[py "authenticated" := Login.VBool true]> a_session)
     !! py "password_input" = None /\
   forall k, k <> py "authenticated" -> k <> py "password_input" ->
     delete (py "password_input")
       (<[py "authenticated" := Login.VBool true]> a_session) !! k
     = a_session !! k)
  \/
  (a_secrets !! py "ADMIN_PASSWORD" <> Some (JStr (py "s3cret")) /\
   [] = [Login.IncorrectPassword] /\
   delete (py "password_input")
     (<[py "authenticated" := Login.VBool true]> a_session) = a_session).
Proof.
  apply (check_password_accepts_only_the_secret a_secrets a_session
           (py "s3cret")).
  - by_run.
  - by_run.
Defined.

Lemma gate_opens_after_login_witness :
  Login.gate
    (delete (py "password_input")
       (<[py "authenticated" := Login.VBool true]> a_session))
  = (delete (py "password_input")
       (<[py "authenticated" := Login.VBool true]> a_session), true).
Proof.
  apply (gate_opens_after_login a_secrets a_session _ []).
  by_run.
Defined.

(** ** The database block *)

Lemma truthy_iter_nonempty q qs :
  Py.truthy q = true -> Py.iter q = Ok qs -> qs <> [].
Proof.
  destruct q as [| | |s|l|f]; try done; intros Ht [= <-].
  - by destruct s.
  - by destruct l.
  - by destruct f.
Qed.

(** From the URL trigger the [questions] table is never sent an empty
    insert: a response without questions is answered with the warning, and
    what is sent has as many rows as the response has entries. *)
Theorem url_never_inserts_no_questions E url w r w' evs rows :
  Api.run_pipeline E url w = (r, w') ->
  log w' = log w ++ evs ->
  In (EvInsertQuestions rows) evs ->
  rows <> [] /\ ~ In (Say MsgNoQuestions) evs.
Proof.
  intros Hrun; revert evs; revert Hrun. by_wp. wp_run.
  all: tidy_log; intros evs Hlog%app_inv_head; subst evs; intros Hin.
  all: in_cases Hin.
  all: injection Hin as <-; split; [|intros Hno; by in_cases Hno].
  all: match goal with
       | Ht : Py.truthy ?q = true, Hi : Py.iter ?q = Ok ?qs,
         Hl : Py.for_each _ ?qs = Ok ?rs |- ?rs <> [] =>
           apply for_each_length in Hl;
           pose proof (truthy_iter_nonempty _ _ Ht Hi);
           destruct rs, qs; done
       end.
Qed.

(** The number of questions that a run from the URL trigger reports as
    saved is the number of rows it added to the [questions] table. *)
Theorem reported_count_is_inserted E url w r w' evs n :
  Api.run_pipeline E url w = (r, w') ->
  log w' = log w ++ evs ->
  In (Say (MsgSaved n)) evs ->
  exists rows,
    db_questions w' = db_questions w ++ rows /\ length rows = n.
Proof.
  intros Hrun; revert evs; revert Hrun. by_wp. wp_run.
  all: tidy_log; intros evs Hlog%app_inv_head; subst evs; intros Hin.
  all: in_cases Hin.
  all: injection Hin as <-; eexists; split; reflexivity.
Qed.

(** When the [questions] table refuses the insert, a run from the URL
    trigger keeps the content row it has just added, without questions,
    reports the database error and still runs to its end. *)
Theorem url_questions_failure_keeps_content_row E url w r w' evs rows :
  (forall rows, questions_insert E rows = false) ->
  Api.run_pipeline E url w = (r, w') ->
  log w' = log w ++ evs ->
  In (EvInsertQuestions rows) evs ->
  r = Val tt /\
  In (Say MsgDatabaseSaveError) evs /\
  db_questions w' = db_questions w /\
  exists id row,
    db_content_library w' = db_content_library w ++ [(id, row)].
Proof.
  intros Hdown Hrun; revert evs; revert Hrun. by_wp.
  wp_run_with ltac:(exfalso;
    match goal with
    | H : questions_insert _ _ = true |- _ => rewrite Hdown in H; done
    end).
  all: tidy_log; intros evs Hlog%app_inv_head; subst evs; intros Hin.
  all: in_cases Hin.
  all: split; [reflexivity|]; split; [in_log|]; split; [reflexivity|].
  all: by do 2 eexists.
Qed.

(** At the form the same refusal is an exception that nothing catches: the
    content row stays without questions, and so do the temporary video and
    the audio file on disk. *)
Theorem form_questions_failure_keeps_row_and_files
    E file t cat sub w r w' evs rows :
  (forall rows, questions_insert E rows = false) ->
  Admin.process_video E file t cat sub w = (r, w') ->
  log w' = log w ++ evs ->
  In (EvInsertQuestions rows) evs ->
  r = Raised ServiceError /\
  db_questions w' = db_questions w /\
  (exists id row,
     db_content_library w' = db_content_library w ++ [(id, row)]) /\
  is_Some (fs w' !! temp_name E) /\
  is_Some (fs w' !! py "temp_audio.mp3").
Proof.
  intros Hdown Hrun; revert evs; revert Hrun. by_wp.
  wp_run_with ltac:(exfalso;
    match goal with
    | H : questions_insert _ _ = true |- _ => rewrite Hdown in H; done
    end).
  all: tidy_log; intros evs Hlog%app_inv_head; subst evs; intros Hin.
  all: in_cases Hin.
  all: split; [reflexivity|]; split; [reflexivity|].
  all: split; [by do 2 eexists|]; cbn [fs]; split.
  all: rewrite ?lookup_insert_is_Some', ?lookup_insert_eq; eauto.
Qed.


Lemma url_never_inserts_no_questions_witness :
  rows_A <> [] /\ ~ In (Say MsgNoQuestions) (log (url_run scenario_A).2).
Proof.
  apply (url_never_inserts_no_questions scenario_A a_url empty_world
           (url_run scenario_A).1 (url_run scenario_A).2).
  - by_run.
  - by_run.
  - in_run.
Defined.

Lemma reported_count_is_inserted_witness :
  exists rows,
    db_questions (url_run scenario_A).2 = db_questions empty_world ++ rows /\
    length rows = 5%nat.
Proof.
  apply (reported_count_is_inserted scenario_A a_url empty_world
           (url_run scenario_A).1 (url_run scenario_A).2
           (log (url_run scenario_A).2)).
  - by_run.
  - by_run.
  - in_run.
Defined.

Lemma url_questions_failure_keeps_content_row_witness :
  (url_run scenario_questions_down).1 = Val tt /\
  In (Say MsgDatabaseSaveError) (log (url_run scenario_questions_down).2) /\
  db_questions (url_run scenario_questions_down).2
    = db_questions empty_world /\
  exists id row,
    db_content_library (url_run scenario_questions_down).2
      = db_content_library empty_world ++ [(id, row)].
Proof.
  apply (url_questions_failure_keeps_content_row scenario_questions_down
           a_url empty_world (url_run scenario_questions_down).1
           (url_run scenario_questions_down).2
           (log (url_run scenario_questions_down).2) rows_A).
  - intros rows. reflexivity.
  - by_run.
  - by_run.
  - in_run.
Defined.

Lemma form_questions_failure_keeps_row_and_files_witness :
  (form_run scenario_questions_down).1 = Raised ServiceError /\
  db_questions (form_run scenario_questions_down).2
    = db_questions empty_world /\
  (exists id row,
     db_content_library (form_run scenario_questions_down).2
       = db_content_library empty_world ++ [(id, row)]) /\
  is_Some (fs (form_run scenario_questions_down).2
             !! temp_name scenario_questions_down) /\
  is_Some (fs (form_run scenario_questions_down).2 !! py "temp_audio.mp3").
Proof.
  apply (form_questions_failure_keeps_row_and_files scenario_questions_down
           [5; 5; 5; 5; 5]%N (py "Gravity: an intro") (py "Science") []
           empty_world (form_run scenario_questions_down).1
           (form_run scenario_questions_down).2
           (log (form_run scenario_questions_down).2) rows_A).
  - intros rows. reflexivity.
  - by_run.
  - by_run.
  - in_run.
Defined.

(** ** The key, derived again *)

(** The key of a string title is stable: it is a stem followed by ".mp4",
    and deriving the key of that stem gives the same key again. *)
Theorem derived_key_is_stable uni s key :
  filename uni (JStr s) = Ok key ->
  exists stem,
    key = stem ++ py ".mp4" /\ filename uni (JStr stem) = Ok key.
Proof.
  rewrite filename_spec. intros [= <-]. exists (sanitized uni s).
  split; [reflexivity|]. rewrite filename_spec. unfold spec_key.
  by rewrite sanitized_idempotent.
Qed.

Lemma derived_key_is_stable_witness :
  exists stem,
    py "Gravity_an_intro.mp4" = stem ++ py ".mp4" /\
    filename ascii_only (JStr stem) = Ok (py "Gravity_an_intro.mp4").
Proof.
  apply (derived_key_is_stable ascii_only (py "Gravity: an intro")).
  by_run.
Defined.
